(** * weather.py: schedule, warning derivation and backoff loop

    A shallow embedding of [src/weather.py].  Python values are an inductive
    type, dictionaries are insertion-ordered association lists, exceptions
    are an error monad, binary64 arithmetic is the Standard Library's
    [SpecFloat] at precision 53, and the outside world (clock, HTTP fetch,
    HTTP post) is an explicit per-cycle environment record. *)

From Stdlib Require Import ZArith QArith Qabs List String Ascii Bool Lia.
From Stdlib Require Import DecimalString.
From Stdlib Require Import Floats.SpecFloat.
Import ListNotations.

Local Open Scope string_scope.
Local Open Scope Z_scope.

(** ** Exceptions and the error monad *)

Inductive exn : Type :=
| TypeError
| ValueError
| KeyError
| IndexError
| AttributeError
| OverflowError
| AssertionError
| TransportError.

Inductive result (A : Type) : Type :=
| OK (a : A)
| Raise (e : exn).

Arguments OK {A} a.
Arguments Raise {A} e.

Definition bind {A B : Type} (c : result A) (k : A -> result B) : result B :=
  match c with
  | OK a => k a
  | Raise e => Raise e
  end.

Notation "x <- c ;; k" := (bind c (fun x => k))
  (at level 61, c at next level, right associativity).

(** ** Dictionaries: insertion-ordered, keyed by strings *)

Definition dict (V : Type) : Type := list (string * V).

Fixpoint dict_get {V : Type} (d : dict V) (k : string) : option V :=
  match d with
  | [] => None
  | (k', v) :: rest => if String.eqb k k' then Some v else dict_get rest k
  end.

(** [k in d] *)
Definition dict_mem {V : Type} (k : string) (d : dict V) : bool :=
  match dict_get d k with
  | Some _ => true
  | None => false
  end.

(** [d[k] = v]: an existing key keeps its position, a new key goes last. *)
Fixpoint dict_set {V : Type} (d : dict V) (k : string) (v : V) : dict V :=
  match d with
  | [] => [(k, v)]
  | (k', v') :: rest =>
      if String.eqb k k' then (k, v) :: rest else (k', v') :: dict_set rest k v
  end.

(** [d[k]], which raises [KeyError] on a missing key. *)
Definition dict_getitem {V : Type} (d : dict V) (k : string) : result V :=
  match dict_get d k with
  | Some v => OK v
  | None => Raise KeyError
  end.

Definition dict_keys {V : Type} (d : dict V) : list string := map fst d.

(** A dictionary display or comprehension inserts its items one by one. *)
Definition dict_of_items {V : Type} (items : list (string * V)) : dict V :=
  fold_left (fun acc kv => dict_set acc (fst kv) (snd kv)) items [].

(** ** Python values

    The values a decoded forecast record holds: [null], integers, binary64
    floats and nested objects.  Strings, lists and booleans do not occur in
    the fields the program reads and are left out of the type. *)

#[local] Unset Elimination Schemes.

Inductive pyval : Type :=
| VNone
| VInt (z : Z)
| VFloat (f : spec_float)
| VDict (d : list (string * pyval)).

#[local] Set Elimination Schemes.

(** [d.get(k)], which yields [None] on a missing key. *)
Definition py_get (d : dict pyval) (k : string) : pyval :=
  match dict_get d k with
  | Some v => v
  | None => VNone
  end.

(** ** Numbers

    Python compares an [int] with a [float] by value, exactly.  Both are
    mapped to extended dyadic numbers [m * 2^e]. *)

Inductive num : Type :=
| NaN
| NegInf
| PosInf
| Fin (m e : Z).

Definition num_of_float (f : spec_float) : num :=
  match f with
  | S754_zero _ => Fin 0 0
  | S754_infinity s => if s then NegInf else PosInf
  | S754_nan => NaN
  | S754_finite s m e => Fin (cond_Zopp s (Zpos m)) e
  end.

Definition num_of_Z (z : Z) : num := Fin z 0.

Definition fin_compare (m1 e1 m2 e2 : Z) : comparison :=
  let e0 := Z.min e1 e2 in
  Z.compare (m1 * 2 ^ (e1 - e0)) (m2 * 2 ^ (e2 - e0)).

(** [a > b] on numbers; any comparison with NaN is false. *)
Definition num_gtb (a b : num) : bool :=
  match a, b with
  | NaN, _ | _, NaN => false
  | PosInf, PosInf => false
  | PosInf, _ => true
  | _, PosInf => false
  | NegInf, _ => false
  | Fin _ _, NegInf => true
  | Fin m1 e1, Fin m2 e2 =>
      match fin_compare m1 e1 m2 e2 with
      | Gt => true
      | _ => false
      end
  end.

Definition num_ltb (a b : num) : bool := num_gtb b a.

Definition prec64 : Z := 53.
Definition emax64 : Z := 1024.

(** Conversion of an [int] operand in mixed arithmetic: correctly rounded,
    [OverflowError] when the integer is out of the binary64 range. *)
Definition float_of_Z (z : Z) : result spec_float :=
  match binary_normalize prec64 emax64 z 0 false with
  | S754_infinity _ => Raise OverflowError
  | f => OK f
  end.

(** The literals [273.15] and [0.2] as binary64 numbers. *)
Definition lit_273_15 : spec_float := S754_finite false 4805305618032230 (-44).
Definition lit_0_2 : spec_float := S754_finite false 7205759403792794 (-55).

(** [x > c] and [x < c] for a numeric constant [c]. *)
Definition py_gt (x : pyval) (c : num) : result bool :=
  match x with
  | VInt z => OK (num_gtb (num_of_Z z) c)
  | VFloat f => OK (num_gtb (num_of_float f) c)
  | VNone | VDict _ => Raise TypeError
  end.

Definition py_lt (x : pyval) (c : num) : result bool :=
  match x with
  | VInt z => OK (num_ltb (num_of_Z z) c)
  | VFloat f => OK (num_ltb (num_of_float f) c)
  | VNone | VDict _ => Raise TypeError
  end.

(** [x - c] for a float constant [c]. *)
Definition py_sub_float (x : pyval) (c : spec_float) : result pyval :=
  match x with
  | VInt z => f <- float_of_Z z ;; OK (VFloat (SFsub prec64 emax64 f c))
  | VFloat f => OK (VFloat (SFsub prec64 emax64 f c))
  | VNone | VDict _ => Raise TypeError
  end.

(** [x * n] for an integer constant [n]. *)
Definition py_mul_int (x : pyval) (n : Z) : result pyval :=
  match x with
  | VInt z => OK (VInt (z * n))
  | VFloat f =>
      fn <- float_of_Z n ;; OK (VFloat (SFmul prec64 emax64 f fn))
  | VNone | VDict _ => Raise TypeError
  end.

(** [int(f)] on a float: the integer part, toward zero. *)
Definition trunc_float (f : spec_float) : result Z :=
  match f with
  | S754_zero _ => OK 0
  | S754_infinity _ => Raise OverflowError
  | S754_nan => Raise ValueError
  | S754_finite s m e => OK (cond_Zopp s (Z.shiftl (Zpos m) e))
  end.

Definition py_int (x : pyval) : result Z :=
  match x with
  | VInt z => OK z
  | VFloat f => trunc_float f
  | VNone | VDict _ => Raise TypeError
  end.

(** Truth value of an object. *)
Definition py_truthy (x : pyval) : bool :=
  match x with
  | VNone => false
  | VInt z => negb (z =? 0)
  | VFloat (S754_zero _) => false
  | VFloat _ => true
  | VDict [] => false
  | VDict _ => true
  end.

(** [x.get(k)] on an arbitrary object: only a dictionary has [get]. *)
Definition py_attr_get (x : pyval) (k : string) : result pyval :=
  match x with
  | VDict d => OK (py_get d k)
  | _ => Raise AttributeError
  end.

(** ** Strings *)

Definition str_of_Z (z : Z) : string := NilZero.string_of_int (Z.to_int z).

Definition newline : string := String (ascii_of_nat 10) "".

(** [sep.join(parts)] *)
Definition join (sep : string) (parts : list string) : string :=
  String.concat sep parts.

(** [s.split(c)] for a one-character separator. *)
Fixpoint split_on (c : ascii) (s : string) : list string :=
  match s with
  | EmptyString => [EmptyString]
  | String a rest =>
      if Ascii.eqb a c then EmptyString :: split_on c rest
      else match split_on c rest with
           | p :: ps => String a p :: ps
           | [] => [String a EmptyString]
           end
  end.

Definition is_space (a : ascii) : bool :=
  let n := Z.of_nat (nat_of_ascii a) in
  ((9 <=? n) && (n <=? 13)) || (n =? 32).

Definition is_digit (a : ascii) : bool :=
  let n := Z.of_nat (nat_of_ascii a) in
  (48 <=? n) && (n <=? 57).

Definition digit_val (a : ascii) : Z := Z.of_nat (nat_of_ascii a) - 48.

Fixpoint lstrip (s : string) : string :=
  match s with
  | String a rest => if is_space a then lstrip rest else s
  | EmptyString => EmptyString
  end.

Fixpoint rev_string (s acc : string) : string :=
  match s with
  | EmptyString => acc
  | String a rest => rev_string rest (String a acc)
  end.

Definition strip (s : string) : string :=
  rev_string (lstrip (rev_string (lstrip s) "")) "".

(** Decimal digits with single underscores allowed between digits;
    [after_digit] tells whether the previous character was a digit. *)
Fixpoint parse_digits (s : string) (acc : Z) (after_digit : bool) : option Z :=
  match s with
  | EmptyString => if after_digit then Some acc else None
  | String a rest =>
      if is_digit a then parse_digits rest (10 * acc + digit_val a) true
      else if Ascii.eqb a "_"%char then
             if after_digit then parse_digits rest acc false else None
           else None
  end.

(** [int(s)] on a string, base 10, ASCII input: surrounding whitespace, an
    optional sign, digits.  Anything else is a [ValueError]. *)
Definition py_int_of_string (s : string) : result Z :=
  let body := strip s in
  let signed :=
    match body with
    | String "-"%char rest => (true, rest)
    | String "+"%char rest => (false, rest)
    | _ => (false, body)
    end in
  match parse_digits (snd signed) 0 false with
  | Some n => OK (if fst signed then - n else n)
  | None => Raise ValueError
  end.

(** ** class Loop

    [self.start] and the two [..._checks_string] methods only feed the
    start-up post of [main] and are left out. *)

Record Loop : Type := {
  next_hour_checks_at : list (Z * Z);
  report_checks_at : list (Z * Z)
}.

(** [assert cond] *)
Definition py_assert (cond : bool) : result unit :=
  if cond then OK tt else Raise AssertionError.

(** One pass of either loop of [Loop.__init__]:
    [hh, mm = map(int, stamp.split(':'))] and the two assertions. *)
Definition parse_stamp (stamp : string) : result (Z * Z) :=
  match split_on ":"%char stamp with
  | [a; b] =>
      hh <- py_int_of_string a ;;
      mm <- py_int_of_string b ;;
      _ <- py_assert ((0 <=? hh) && (hh <=? 23)) ;;
      _ <- py_assert ((0 <=? mm) && (mm <=? 60)) ;;
      OK (hh, mm)
  | _ => Raise ValueError
  end.

Fixpoint parse_checks (stamps : list string) : result (list (Z * Z)) :=
  match stamps with
  | [] => OK []
  | stamp :: rest =>
      hm <- parse_stamp stamp ;;
      rv <- parse_checks rest ;;
      OK (hm :: rv)
  end.

Definition Loop_init (next_hour report : list string) : result Loop :=
  a <- parse_checks next_hour ;;
  b <- parse_checks report ;;
  OK {| next_hour_checks_at := a; report_checks_at := b |}.

Definition default_next_hour_checks : list string :=
  ["8:00"; "13:00"; "17:00"; "20:00"].
Definition default_report_checks : list string := ["7:00"; "13:00"].

(** The loop shared by [regular_is_triggered] and [report_is_triggered];
    [now] is the (hour, minute) read from the wall clock. *)
Fixpoint is_triggered (checks : list (Z * Z)) (now : Z * Z) : bool :=
  match checks with
  | [] => false
  | (hh, mm) :: rest =>
      if (hh =? fst now) && (mm =? snd now) then true
      else is_triggered rest now
  end.

Definition regular_is_triggered (l : Loop) (now : Z * Z) : bool :=
  is_triggered (next_hour_checks_at l) now.

Definition report_is_triggered (l : Loop) (now : Z * Z) : bool :=
  is_triggered (report_checks_at l) now.

(** [f'{z:02}']: zero-padded to width two; a sign counts for the width. *)
Definition fmt02 (z : Z) : string :=
  if (0 <=? z) && (z <? 10) then "0" ++ str_of_Z z else str_of_Z z.

(** [f'{hh:02}:{mm:02}'] *)
Definition check_stamp (hm : Z * Z) : string :=
  fmt02 (fst hm) ++ ":" ++ fmt02 (snd hm).

Definition next_hour_checks_string (l : Loop) : string :=
  join ", " (map check_stamp (next_hour_checks_at l)).

Definition report_checks_string (l : Loop) : string :=
  join ", " (map check_stamp (report_checks_at l)).

(** ** simplify_hour *)

Definition simplify_hour (h : dict pyval) : result (dict pyval) :=
  let uvi := py_get h "uvi" in
  temp <- py_sub_float (py_get h "temp") lit_273_15 ;;
  let wind := py_get h "wind_speed" in
  let prob_rain := py_get h "pop" in
  let rain := py_get h "rain" in
  let rv := dict_set [] "UV" uvi in
  cold <- py_int temp ;;
  let rv := dict_set rv "COLD" (VInt cold) in
  hot <- py_int temp ;;
  let rv := dict_set rv "HOT" (VInt hot) in
  w <- py_int wind ;;
  let rv := dict_set rv "WIND" (VInt w) in
  scaled <- py_mul_int prob_rain 100 ;;
  p <- py_int scaled ;;
  let rv := dict_set rv "PROB_RAIN" (VInt p) in
  if py_truthy rain then
    r1 <- py_attr_get rain "1h" ;;
    if py_truthy r1 then
      r2 <- py_attr_get rain "1h" ;;
      heavy <- py_gt r2 (num_of_float lit_0_2) ;;
      if heavy then
        r3 <- py_attr_get rain "1h" ;;
        OK (dict_set rv "RAINDROPS" r3)
      else OK rv
    else OK rv
  else OK rv.

(** ** condition_pairs_to_string *)

(** [enumerate(l)], counting from [i]. *)
Fixpoint enumerate_from {A : Type} (i : Z) (l : list A) : list (Z * A) :=
  match l with
  | [] => []
  | x :: rest => (i, x) :: enumerate_from (i + 1) rest
  end.

(** [itertools.groupby]: consecutive elements with equal keys form one
    group, in order. *)
Fixpoint groupby {A K : Type} (eqb : K -> K -> bool) (key : A -> K)
    (l : list A) : list (K * list A) :=
  match l with
  | [] => []
  | x :: rest =>
      match groupby eqb key rest with
      | (k, g) :: gs =>
          if eqb (key x) k then (k, x :: g) :: gs
          else (key x, [x]) :: (k, g) :: gs
      | [] => [(key x, [x])]
      end
  end.

Definition good_hours (arr : list (Z * bool)) : list Z :=
  map fst (filter (fun hc => Bool.eqb (snd hc) true) arr).

(** [(b[0][1], b[-1][1])] of a group [b]; a group is never empty. *)
Definition group_ends (b : list (Z * Z)) : Z * Z :=
  (snd (hd (0, 0) b), snd (last b (0, 0))).

Definition hour_pairs (hours : list Z) : list (Z * Z) :=
  map (fun kb => group_ends (snd kb))
      (groupby Z.eqb (fun pair => snd pair - fst pair) (enumerate_from 0 hours)).

Definition render_pair (t : Z * Z) : string :=
  if fst t =? snd t then str_of_Z (fst t)
  else str_of_Z (fst t) ++ "-" ++ str_of_Z (snd t).

Definition condition_pairs_to_string (arr : list (Z * bool)) : string :=
  join ", " (map render_pair (hour_pairs (good_hours arr))).

(** ** class Status *)

Definition utf8 (bytes : list nat) : string :=
  fold_right (fun b acc => String (ascii_of_nat b) acc) EmptyString bytes.

(** The rule table, in the order the source writes it. *)
Definition conditions : dict (pyval -> result bool) :=
  [ ("PROB_RAIN", fun x => py_gt x (num_of_Z 50));
    ("COLD", fun x => py_lt x (num_of_Z 15));
    ("UV", fun x => py_gt x (num_of_Z 2));
    ("HOT", fun x => py_gt x (num_of_Z 25)) ].

(** U+1F327, U+1F976, U+E04A, U+1F975 *)
Definition emojis : dict string :=
  [ ("PROB_RAIN", utf8 [240; 159; 140; 167]%nat);
    ("COLD", utf8 [240; 159; 165; 182]%nat);
    ("UV", utf8 [238; 129; 138]%nat);
    ("HOT", utf8 [240; 159; 165; 181]%nat) ].

Record Status : Type := {
  values : dict pyval;
  bools : dict bool;
  warnings : dict pyval
}.

(** [{key: test(d[key]) for key, test in conditions.items() if key in d}] *)
Fixpoint comp_bools (conds : dict (pyval -> result bool)) (d : dict pyval)
    (acc : dict bool) : result (dict bool) :=
  match conds with
  | [] => OK acc
  | (key, test) :: rest =>
      if dict_mem key d then
        v <- dict_getitem d key ;;
        b <- test v ;;
        comp_bools rest d (dict_set acc key b)
      else comp_bools rest d acc
  end.

(** [{key: d.get(key) for key, test in conditions.items()
      if key in d and test(d.get(key))}] *)
Fixpoint comp_warnings (conds : dict (pyval -> result bool)) (d : dict pyval)
    (acc : dict pyval) : result (dict pyval) :=
  match conds with
  | [] => OK acc
  | (key, test) :: rest =>
      if dict_mem key d then
        b <- test (py_get d key) ;;
        if b then comp_warnings rest d (dict_set acc key (py_get d key))
        else comp_warnings rest d acc
      else comp_warnings rest d acc
  end.

Definition Status_init (d : dict pyval) : result Status :=
  let vals :=
    dict_of_items (filter (fun kv => dict_mem (fst kv) conditions) d) in
  bs <- comp_bools conditions d [] ;;
  ws <- comp_warnings conditions d [] ;;
  OK {| values := vals; bools := bs; warnings := ws |}.

(** One line of [get_long_message]: [f'{emojis.get(k)}: {int(v)}'];
    [emojis.get(k)] of a missing key would print as [None]. *)
Definition long_message_line (kv : string * pyval) : result string :=
  n <- py_int (snd kv) ;;
  OK (match dict_get emojis (fst kv) with
      | Some e => e
      | None => "None"
      end ++ ": " ++ str_of_Z n).

Fixpoint long_message_lines (ws : dict pyval) : result (list string) :=
  match ws with
  | [] => OK []
  | kv :: rest =>
      line <- long_message_line kv ;;
      rv <- long_message_lines rest ;;
      OK (line :: rv)
  end.

Definition get_long_message (st : Status) : result string :=
  rv <- long_message_lines (warnings st) ;;
  OK (join newline rv).

Definition get_most_important_warning (st : Status) : string :=
  match warnings st with
  | (name, _) :: _ => name
  | [] => ""
  end.

(** [Status.__bool__] *)
Definition Status_bool (st : Status) : bool :=
  match warnings st with
  | [] => true
  | _ :: _ => false
  end.

(** ** class Weather

    The attributes the methods read or write; [report_warnings],
    [regular_warnings] and the request template are never read back. *)

Record Weather : Type := {
  is_good : bool;
  warning : string;
  message : string
}.

Definition Weather_init : Weather :=
  {| is_good := true; warning := ""; message := "" |}.

(** ** class Notifications and the world a cycle acts on *)

Inductive notification : Type :=
| N_update (title body : string)
| N_stopped (time : string) (reason : exn)
| N_still_broken (time : string).

(** The [Priority] header of a post, when it has one. *)
Definition priority (n : notification) : option string :=
  match n with
  | N_update _ _ => None
  | N_stopped _ _ => Some "max"
  | N_still_broken _ => Some "min"
  end.

(** The [weather] object and the posts delivered so far.  Both are shared
    mutable state: what a method wrote before it raised stays written. *)
Record World : Type := {
  weather : Weather;
  outbox : list notification
}.

Definition M (A : Type) : Type := World -> result A * World.

Definition ret {A : Type} (a : A) : M A := fun w => (OK a, w).

Definition mbind {A B : Type} (c : M A) (k : A -> M B) : M B :=
  fun w =>
    match c w with
    | (OK a, w') => k a w'
    | (Raise e, w') => (Raise e, w')
    end.

Notation "x <~ c ;; k" := (mbind c (fun x => k))
  (at level 61, c at next level, right associativity).

Definition lift {A : Type} (r : result A) : M A := fun w => (r, w).

Definition get_weather : M Weather := fun w => (OK (weather w), w).

Definition set_is_good (b : bool) : M unit :=
  fun w =>
    (OK tt,
     {| weather := {| is_good := b; warning := warning (weather w);
                      message := message (weather w) |};
        outbox := outbox w |}).

Definition set_warning (s : string) : M unit :=
  fun w =>
    (OK tt,
     {| weather := {| is_good := is_good (weather w); warning := s;
                      message := message (weather w) |};
        outbox := outbox w |}).

Definition set_message (s : string) : M unit :=
  fun w =>
    (OK tt,
     {| weather := {| is_good := is_good (weather w);
                      warning := warning (weather w); message := s |};
        outbox := outbox w |}).

(** [requests.post]: [sent] says whether the transport delivers or raises. *)
Definition post (sent : result unit) (n : notification) : M unit :=
  fun w =>
    match sent with
    | OK _ => (OK tt, {| weather := weather w; outbox := (outbox w ++ [n])%list |})
    | Raise e => (Raise e, w)
    end.

Definition when (b : bool) (c : M unit) : M unit := if b then c else ret tt.

(** [Weather.check_next_hour] as [main] calls it ([debug] false); [fetch] is
    what [requests.get(request).json()['hourly']] delivers or raises. *)
Definition check_next_hour (fetch : result (list (dict pyval))) : M unit :=
  response <~ lift fetch ;;
  match response with
  | [] => lift (Raise IndexError)
  | h0 :: _ =>
      simple_dict <~ lift (simplify_hour h0) ;;
      status <~ lift (Status_init simple_dict) ;;
      if Status_bool status then
        _ <~ set_is_good true ;;
        _ <~ set_warning "" ;;
        set_message ""
      else
        _ <~ set_is_good false ;;
        _ <~ set_warning ("next hour: " ++ get_most_important_warning status) ;;
        msg <~ lift (get_long_message status) ;;
        set_message msg
  end.

(** The first loop of [check_report]: the hours kept for the report.
    [local_hour] is [datetime.fromtimestamp(ts).hour] on the host. *)
Fixpoint gather_hours (local_hour : pyval -> result Z) (now_hour last_hour : Z)
    (next_day : list (dict pyval)) : result (list (Z * Status)) :=
  match next_day with
  | [] => OK []
  | hour_dict :: rest =>
      dt <- dict_getitem hour_dict "dt" ;;
      hh <- local_hour dt ;;
      if (hh <? now_hour) || (hh >=? last_hour) then OK []
      else
        simple_dict <- simplify_hour hour_dict ;;
        status <- Status_init simple_dict ;;
        hours <- gather_hours local_hour now_hour last_hour rest ;;
        OK ((hh, status) :: hours)
  end.

(** [status.bools.get(cond_name, False)] for every kept hour. *)
Definition cond_arr (cond_name : string) (hours : list (Z * Status))
    : list (Z * bool) :=
  map (fun hs =>
         (fst hs,
          match dict_get (bools (snd hs)) cond_name with
          | Some b => b
          | None => false
          end)) hours.

(** The second loop of [check_report], over the rule names. *)
Fixpoint report_lines (names : list string) (hours : list (Z * Status))
    : result (list string) :=
  match names with
  | [] => OK []
  | cond_name :: rest =>
      emoji <- dict_getitem emojis cond_name ;;
      let arr := cond_arr cond_name hours in
      rv <- report_lines rest hours ;;
      OK (if existsb snd arr
          then (emoji ++ ": " ++ condition_pairs_to_string arr) :: rv
          else rv)
  end.

(** U+1F917 *)
Definition good_weather_message : string :=
  "Good weather!" ++ " " ++ utf8 [240; 159; 164; 151]%nat.

Definition check_report (local_hour : pyval -> result Z) (now_hour : Z)
    (fetch : result (list (dict pyval))) (last_hour : Z) : M unit :=
  _ <~ lift (py_assert ((0 <=? last_hour) && (last_hour <=? 24))) ;;
  reply <~ lift fetch ;;
  let next_day := firstn 24 reply in
  hours <~ lift (gather_hours local_hour now_hour last_hour next_day) ;;
  rv <~ lift (report_lines (dict_keys conditions) hours) ;;
  match rv with
  | [] =>
      _ <~ set_is_good true ;;
      _ <~ set_warning "" ;;
      set_message good_weather_message
  | _ :: _ =>
      _ <~ set_is_good false ;;
      _ <~ set_warning "prepare for the day" ;;
      set_message (join newline rv)
  end.

(** U+1F7E2 and U+1F534 *)
Definition green_circle : string := utf8 [240; 159; 159; 162]%nat.
Definition red_circle : string := utf8 [240; 159; 148; 180]%nat.

(** [Notifications.update] *)
Definition update (sent : result unit) : M unit :=
  w <~ get_weather ;;
  let status_emoji := if Bool.eqb (is_good w) true then green_circle else red_circle in
  post sent (N_update (join ": " [status_emoji; warning w]) (message w)).

(** ** main: the polling loop

    The model starts at [has_broken = False; sleep = 60], after the
    start-up post. *)

(** What the outside world does during one pass of [while True]. *)
Record CycleEnv : Type := {
  now_report : Z * Z;
  now_regular : Z * Z;
  report_now_hour : Z;
  local_hour : pyval -> result Z;
  report_fetch : result (list (dict pyval));
  next_hour_fetch : result (list (dict pyval));
  post_report : result unit;
  post_regular : result unit;
  post_failure : result unit;
  fail_time : string
}.

(** The body of [try]. *)
Definition try_body (l : Loop) (env : CycleEnv) : M unit :=
  _ <~ when (report_is_triggered l (now_report env))
         (_ <~ check_report (local_hour env) (report_now_hour env)
                 (report_fetch env) 24 ;;
          update (post_report env)) ;;
  when (regular_is_triggered l (now_regular env))
    (_ <~ check_next_hour (next_hour_fetch env) ;;
     w <~ get_weather ;;
     when (negb (is_good w)) (update (post_regular env))).

Record MainState : Type := {
  has_broken : bool;
  sleep : Z;
  world : World
}.

Definition initial_state : MainState :=
  {| has_broken := false; sleep := 60;
     world := {| weather := Weather_init; outbox := [] |} |}.

(** A pass either reaches [time.sleep(sleep)] or an exception leaves [main]. *)
Inductive outcome : Type :=
| Sleeping (s : MainState)
| Crashed (e : exn) (s : MainState).

Definition cycle (l : Loop) (env : CycleEnv) (s : MainState) : outcome :=
  if sleep s <? 60 then Crashed AssertionError s
  else
    match try_body l env (world s) with
    | (OK _, w) => Sleeping {| has_broken := false; sleep := 60; world := w |}
    | (Raise e, w) =>
        if negb (has_broken s) then
          match post (post_failure env) (N_stopped (fail_time env) e) w with
          | (OK _, w') =>
              Sleeping {| has_broken := true; sleep := 60 * 15; world := w' |}
          | (Raise e', w') =>
              Crashed e' {| has_broken := true; sleep := sleep s; world := w' |}
          end
        else
          match post (post_failure env) (N_still_broken (fail_time env)) w with
          | (OK _, w') =>
              Sleeping {| has_broken := has_broken s; sleep := 3600; world := w' |}
          | (Raise e', w') =>
              Crashed e' {| has_broken := has_broken s; sleep := sleep s;
                            world := w' |}
          end
    end.

(** The first [length envs] passes of the loop. *)
Fixpoint main_loop (l : Loop) (envs : list CycleEnv) (s : MainState) : outcome :=
  match envs with
  | [] => Sleeping s
  | env :: rest =>
      match cycle l env s with
      | Sleeping s' => main_loop l rest s'
      | Crashed e s' => Crashed e s'
      end
  end.

(** * Definitions used to state the properties *)

(** The rule names, in rule-table order. *)
Definition cond_names : list string := ["PROB_RAIN"; "COLD"; "UV"; "HOT"].

Definition is_number (v : pyval) : bool :=
  match v with
  | VInt _ | VFloat _ => true
  | VNone | VDict _ => false
  end.

(** What one rule contributes to [warnings] and to [bools]. *)
Definition warn_items (d : dict pyval) (rule : string * (pyval -> result bool))
    : list (string * pyval) :=
  match dict_get d (fst rule) with
  | Some v =>
      match snd rule v with
      | OK true => [(fst rule, v)]
      | _ => []
      end
  | None => []
  end.

Definition bool_items (d : dict pyval) (rule : string * (pyval -> result bool))
    : list (string * bool) :=
  match dict_get d (fst rule) with
  | Some v =>
      match snd rule v with
      | OK b => [(fst rule, b)]
      | Raise _ => []
      end
  | None => []
  end.

(** The fields of a snapshot the rules read. *)
Definition rule_fields (d : dict pyval) : dict pyval :=
  filter (fun kv => dict_mem (fst kv) conditions) d.

(** The exact value of a finite number, as a rational. *)
Definition Q_of_dyadic (m e : Z) : Q :=
  if 0 <=? e then inject_Z (m * 2 ^ e) else Qmake m (Z.to_pos (2 ^ (- e))).

Definition float_value (f : spec_float) : option Q :=
  match f with
  | S754_zero _ => Some (inject_Z 0)
  | S754_finite s m e => Some (Q_of_dyadic (cond_Zopp s (Zpos m)) e)
  | S754_infinity _ | S754_nan => None
  end.

Definition pyval_value (x : pyval) : option Q :=
  match x with
  | VInt z => Some (inject_Z z)
  | VFloat f => float_value f
  | VNone | VDict _ => None
  end.

(** [z] is [q] with its fractional part dropped. *)
Definition truncates (q : Q) (z : Z) : Prop :=
  (Qle (inject_Z 0) q -> Qle (inject_Z z) q /\ Qlt q (inject_Z (z + 1)))
  /\ (Qle q (inject_Z 0) -> Qlt (inject_Z (z - 1)) q /\ Qle q (inject_Z z)).

(** Range compression as the specification words it: the maximal runs
    of consecutive integers of a list, each as (first, last). *)
Fixpoint maximal_runs (hours : list Z) : list (Z * Z) :=
  match hours with
  | [] => []
  | x :: rest =>
      match maximal_runs rest with
      | (a, b) :: runs =>
          if a =? x + 1 then (x, b) :: runs else (x, x) :: (a, b) :: runs
      | [] => [(x, x)]
      end
  end.

(** The hours a run stands for: [first; first + 1; ...; last]. *)
Definition hours_of_run (r : Z * Z) : list Z :=
  map (fun i => fst r + Z.of_nat i) (seq 0 (Z.to_nat (snd r - fst r + 1))).

(** No run continues the run before it. *)
Fixpoint separated (runs : list (Z * Z)) : Prop :=
  match runs with
  | r1 :: (r2 :: _) as tl => fst r2 <> snd r1 + 1 /\ separated tl
  | _ => True
  end.

Definition emoji_of (c : string) : string :=
  match dict_get emojis c with
  | Some e => e
  | None => ""
  end.

(** The lines a rule contributes to the report: none without a triggered
    hour, one otherwise. *)
Definition report_line (hours : list (Z * Status)) (c : string) : list string :=
  match good_hours (cond_arr c hours) with
  | [] => []
  | _ :: _ => [emoji_of c ++ ": " ++ condition_pairs_to_string (cond_arr c hours)]
  end.

(** Rule [c] is triggered on some kept hour of the report window. *)
Definition triggers (hours : list (Z * Status)) (c : string) : Prop :=
  exists hh st, In (hh, st) hours /\ dict_get (bools st) c = Some true.

(** The two halves of the body of [try]. *)
Definition report_branch (env : CycleEnv) : M unit :=
  _ <~ check_report (local_hour env) (report_now_hour env) (report_fetch env) 24 ;;
  update (post_report env).

Definition regular_branch (env : CycleEnv) : M unit :=
  _ <~ check_next_hour (next_hour_fetch env) ;;
  w <~ get_weather ;;
  when (negb (is_good w)) (update (post_regular env)).

(** What the body of [try] returns or raises, read off a fresh world;
    [try_body_result] shows it is the same on every world. *)
Definition try_result (l : Loop) (env : CycleEnv) : result unit :=
  fst (try_body l env {| weather := Weather_init; outbox := [] |}).

(** A pass whose [try] block raises and whose failure post is delivered. *)
Definition failing_pass (l : Loop) (env : CycleEnv) : Prop :=
  (exists e, try_result l env = Raise e) /\ post_failure env = OK tt.

(** The three states of the backoff machine. *)
Definition backoff_state (s : MainState) : Prop :=
  (has_broken s = false /\ sleep s = 60)
  \/ (has_broken s = true /\ (sleep s = 15 * 60 \/ sleep s = 60 * 60)).

(** How often a character occurs in a string. *)
Fixpoint count_char (c : ascii) (s : string) : nat :=
  match s with
  | EmptyString => 0%nat
  | String a rest =>
      if Ascii.eqb a c then S (count_char c rest) else count_char c rest
  end.

(** A stamp that splits and parses. *)
Definition stamp_ok (stamp : string) : Prop := exists hm, parse_stamp stamp = OK hm.

(** The hours [0 .. 23] and the minutes [0 .. 60] the assertions let through. *)
Definition hour_range : list Z := map Z.of_nat (seq 0 24).
Definition minute_range : list Z := map Z.of_nat (seq 0 61).

Definition stamp_round_trips (hm : Z * Z) : bool :=
  match parse_stamp (check_stamp hm) with
  | OK hm' => (fst hm' =? fst hm) && (snd hm' =? snd hm)
  | Raise _ => false
  end.

(** The record holds a rain volume for the hour above 0.2. *)
Definition heavy_rain (h : dict pyval) (r : pyval) : Prop :=
  exists d,
    py_get h "rain" = VDict d
    /\ dict_get d "1h" = Some r
    /\ py_gt r (num_of_float lit_0_2) = OK true.

(** The record is read into the kept hour [hs]. *)
Definition kept_as (lh : pyval -> result Z) (rec : dict pyval) (hs : Z * Status)
    : Prop :=
  exists dt,
    dict_get rec "dt" = Some dt
    /\ lh dt = OK (fst hs)
    /\ (sd <- simplify_hour rec ;; Status_init sd) = OK (snd hs).

(** The record's local hour is outside the report window. *)
Definition outside_window (lh : pyval -> result Z) (now_hour last_hour : Z)
    (rec : dict pyval) : Prop :=
  exists dt hh,
    dict_get rec "dt" = Some dt /\ lh dt = OK hh
    /\ (hh < now_hour \/ last_hour <= hh).

(** The posts of [Notifications.update] after a report and after a
    next-hour check. *)
Definition report_note (n : notification) : Prop :=
  n = N_update (green_circle ++ ": ") good_weather_message
  \/ exists body, n = N_update (red_circle ++ ": prepare for the day") body.

Definition regular_note (n : notification) : Prop :=
  exists c body,
    In c cond_names /\ body <> ""
    /\ n = N_update (red_circle ++ ": next hour: " ++ c) body.

(** The two posts of the exception handler. *)
Definition is_failure_note (n : notification) : bool :=
  match n with
  | N_update _ _ => false
  | N_stopped _ _ | N_still_broken _ => true
  end.

Definition failure_note (env : CycleEnv) (n : notification) : Prop :=
  (exists e, n = N_stopped (fail_time env) e) \/ n = N_still_broken (fail_time env).

(** The state a pass ends in, asleep or not. *)
Definition final_state (o : outcome) : MainState :=
  match o with
  | Sleeping s => s
  | Crashed _ s => s
  end.

(** ** Sample inputs *)

(** 300.15, 0.6, 293.15, 2.5 and 0.1 as binary64 numbers. *)
Definition float_300_15 : spec_float := S754_finite false 5280294641231462 (-44).
Definition float_0_6 : spec_float := S754_finite false 5404319552844595 (-53).
Definition float_293_15 : spec_float := S754_finite false 5157149338920550 (-44).
Definition float_2_5 : spec_float := S754_finite false 5629499534213120 (-51).
Definition float_0_1 : spec_float := S754_finite false 7205759403792794 (-56).

(** A hot, sunny, rainy hour at 13:00 UTC of day one. *)
Definition hot_hour : dict pyval :=
  [("dt", VInt 46800); ("uvi", VInt 5); ("temp", VFloat float_300_15);
   ("wind_speed", VInt 2); ("pop", VFloat float_0_6)].

Definition hot_snapshot : dict pyval :=
  [("UV", VInt 5); ("COLD", VInt 27); ("HOT", VInt 27); ("WIND", VInt 2);
   ("PROB_RAIN", VInt 60)].

Definition hot_status : Status :=
  {| values := [("UV", VInt 5); ("COLD", VInt 27); ("HOT", VInt 27);
                ("PROB_RAIN", VInt 60)];
     bools := [("PROB_RAIN", true); ("COLD", false); ("UV", true); ("HOT", true)];
     warnings := [("PROB_RAIN", VInt 60); ("UV", VInt 5); ("HOT", VInt 27)] |}.

(** An hour no rule objects to: 20 degrees, UV 1, 10 percent rain. *)
Definition mild_hour (dt : Z) : dict pyval :=
  [("dt", VInt dt); ("uvi", VInt 1); ("temp", VFloat float_293_15);
   ("wind_speed", VFloat float_2_5); ("pop", VFloat float_0_1)].

(** Hourly records from 13:00 of day one to 00:00 of day two. *)
Definition mild_reply : list (dict pyval) :=
  map (fun i => mild_hour (46800 + 3600 * Z.of_nat i)) (seq 0 12).

(** The local hour on a host whose time zone is UTC. *)
Definition utc_hour (ts : pyval) : result Z :=
  match ts with
  | VInt z => OK ((z / 3600) mod 24)
  | _ => Raise TypeError
  end.

Definition mild_hours : list (Z * Status) :=
  match gather_hours utc_hour 13 24 (firstn 24 mild_reply) with
  | OK hours => hours
  | Raise _ => []
  end.

Definition default_loop : Loop :=
  {| next_hour_checks_at := [(8, 0); (13, 0); (17, 0); (20, 0)];
     report_checks_at := [(7, 0); (13, 0)] |}.

(** 13:00, both checks due, mild weather, every request delivered. *)
Definition env_1300 : CycleEnv :=
  {| now_report := (13, 0); now_regular := (13, 0); report_now_hour := 13;
     local_hour := utc_hour;
     report_fetch := OK mild_reply; next_hour_fetch := OK mild_reply;
     post_report := OK tt; post_regular := OK tt; post_failure := OK tt;
     fail_time := "13:00" |}.

(** 08:00, the regular check due, no request delivered at all. *)
Definition env_offline : CycleEnv :=
  {| now_report := (8, 0); now_regular := (8, 0); report_now_hour := 8;
     local_hour := utc_hour;
     report_fetch := Raise TransportError; next_hour_fetch := Raise TransportError;
     post_report := Raise TransportError; post_regular := Raise TransportError;
     post_failure := Raise TransportError;
     fail_time := "08:00" |}.

(** 08:00, the regular check due, the forecast service unreachable. *)
Definition env_down : CycleEnv :=
  {| now_report := (8, 0); now_regular := (8, 0); report_now_hour := 8;
     local_hour := utc_hour;
     report_fetch := Raise TransportError; next_hour_fetch := Raise TransportError;
     post_report := OK tt; post_regular := OK tt; post_failure := OK tt;
     fail_time := "08:00" |}.

(** The hot hour with 2.5 mm of rain, and its snapshot. *)
Definition rainy_hour : dict pyval :=
  (hot_hour ++ [("rain", VDict [("1h", VFloat float_2_5)])])%list.

Definition rainy_snapshot : dict pyval :=
  (hot_snapshot ++ [("RAINDROPS", VFloat float_2_5)])%list.

(** A mild hour whose record carries no [uvi]. *)
Definition no_uvi_hour : dict pyval :=
  [("dt", VInt 46800); ("temp", VFloat float_293_15);
   ("wind_speed", VFloat float_2_5); ("pop", VFloat float_0_1)].

(** The hot hour with an infinite UV index. *)
Definition infinite_uv_hour : dict pyval :=
  [("dt", VInt 46800); ("uvi", VFloat (S754_infinity false));
   ("temp", VFloat float_300_15); ("wind_speed", VInt 2);
   ("pop", VFloat float_0_6)].

(** * Properties *)

(** ** The error monad *)

Lemma bind_OK_inv {A B : Type} (c : result A) (k : A -> result B) (b : B) :
  bind c k = OK b -> exists a, c = OK a /\ k a = OK b.
Proof.
  destruct c as [a | e]; simpl; intro H.
  - exists a. split; [reflexivity | exact H].
  - discriminate H.
Qed.

Ltac bind_inv H :=
  let a := fresh "a" in
  let Ha := fresh "Ha" in
  apply bind_OK_inv in H; destruct H as [a [Ha H]].

(** ** Dictionaries *)

Section DictFacts.
Context {V : Type}.
Implicit Types (d : dict V) (k : string) (v : V).

Lemma dict_mem_In d k : dict_mem k d = true <-> In k (dict_keys d).
Proof.
  unfold dict_mem, dict_keys.
  induction d as [| [k' v'] d IH]; simpl.
  - split; [discriminate | tauto].
  - destruct (String.eqb_spec k k') as [-> | Hne].
    + split; auto.
    + rewrite IH. split; [auto | intros [E | H]; [congruence | exact H]].
Qed.

Lemma dict_get_set d k v k' :
  dict_get (dict_set d k v) k' = if String.eqb k' k then Some v else dict_get d k'.
Proof.
  induction d as [| [k0 v0] d IH]; simpl.
  - destruct (String.eqb k' k); reflexivity.
  - destruct (String.eqb_spec k k0) as [-> | Hne]; simpl.
    + destruct (String.eqb k' k0); reflexivity.
    + rewrite IH.
      destruct (String.eqb_spec k' k0) as [-> | Hne'].
      * destruct (String.eqb_spec k0 k) as [E | _]; [congruence | reflexivity].
      * reflexivity.
Qed.

Lemma dict_mem_set d k v k' :
  dict_mem k' (dict_set d k v) = String.eqb k' k || dict_mem k' d.
Proof.
  unfold dict_mem. rewrite dict_get_set.
  destruct (String.eqb k' k); reflexivity.
Qed.

(** A key that is not there yet is inserted last. *)
Lemma dict_set_fresh d k v :
  dict_mem k d = false -> dict_set d k v = (d ++ [(k, v)])%list.
Proof.
  unfold dict_mem.
  induction d as [| [k0 v0] d IH]; simpl; intro H.
  - reflexivity.
  - destruct (String.eqb k k0); [discriminate H |].
    rewrite IH by exact H. reflexivity.
Qed.

Lemma dict_get_In d k v : dict_get d k = Some v -> In (k, v) d.
Proof.
  induction d as [| [k0 v0] d IH]; simpl; intro H.
  - discriminate H.
  - destruct (String.eqb_spec k k0) as [-> | _].
    + left. congruence.
    + right. auto.
Qed.

Lemma fold_set_keys (items : list (string * V)) (acc : dict V) k :
  In k (dict_keys
          (fold_left (fun a kv => dict_set a (fst kv) (snd kv)) items acc))
  <-> In k (dict_keys acc) \/ In k (map fst items).
Proof.
  revert acc.
  induction items as [| [k0 v0] items IH]; intro acc; simpl.
  - tauto.
  - rewrite IH. rewrite <- !dict_mem_In. rewrite dict_mem_set.
    rewrite orb_true_iff.
    destruct (String.eqb_spec k k0) as [-> | Hne].
    + tauto.
    + split.
      * intros [[H | H] | H]; [discriminate H | tauto | tauto].
      * intros [H | [H | H]]; [tauto | congruence | tauto].
Qed.

Lemma dict_of_items_keys (items : list (string * V)) k :
  In k (dict_keys (dict_of_items items)) <-> In k (map fst items).
Proof.
  unfold dict_of_items. rewrite fold_set_keys. simpl. tauto.
Qed.
End DictFacts.

(** ** Scheduler *)

Lemma is_triggered_In (checks : list (Z * Z)) (now : Z * Z) :
  is_triggered checks now = true <-> In now checks.
Proof.
  induction checks as [| [hh mm] checks IH]; simpl.
  - split; [discriminate | tauto].
  - destruct now as [h m]; simpl in *.
    destruct (Z.eqb_spec hh h) as [-> | Hh]; simpl.
    + destruct (Z.eqb_spec mm m) as [-> | Hm].
      * split; auto.
      * rewrite IH. split; [auto | intros [E | H]; [congruence | exact H]].
    + rewrite IH. split; [auto | intros [E | H]; [congruence | exact H]].
Qed.

(** C3: for every schedule and every wall-clock (hour, minute) pair,
    [regular_is_triggered] answers true exactly when the pair is an entry of
    the next-hour schedule, and [report_is_triggered] exactly when it is an
    entry of the report schedule; on every other pair they answer false. *)
Theorem triggers_match_schedule (l : Loop) (hour minute : Z) :
  (regular_is_triggered l (hour, minute) = true
   <-> In (hour, minute) (next_hour_checks_at l))
  /\ (report_is_triggered l (hour, minute) = true
      <-> In (hour, minute) (report_checks_at l))
  /\ (regular_is_triggered l (hour, minute) = false
      <-> ~ In (hour, minute) (next_hour_checks_at l))
  /\ (report_is_triggered l (hour, minute) = false
      <-> ~ In (hour, minute) (report_checks_at l)).
Proof.
  unfold regular_is_triggered, report_is_triggered.
  pose proof (is_triggered_In (next_hour_checks_at l) (hour, minute)) as Hn.
  pose proof (is_triggered_In (report_checks_at l) (hour, minute)) as Hr.
  repeat split; try tauto.
  - intros H HI. apply Hn in HI. congruence.
  - intro H. destruct (is_triggered (next_hour_checks_at l) (hour, minute));
      [exfalso; tauto | reflexivity].
  - intros H HI. apply Hr in HI. congruence.
  - intro H. destruct (is_triggered (report_checks_at l) (hour, minute));
      [exfalso; tauto | reflexivity].
Qed.

(** ** Status *)

Lemma cond_names_keys : dict_keys conditions = cond_names.
Proof. reflexivity. Qed.

Lemma conditions_NoDup : NoDup (dict_keys conditions).
Proof.
  rewrite cond_names_keys. unfold cond_names.
  repeat constructor; simpl; intuition discriminate.
Qed.

Lemma py_get_Some (d : dict pyval) (k : string) (v : pyval) :
  dict_get d k = Some v -> py_get d k = v.
Proof. unfold py_get. intros ->. reflexivity. Qed.

Lemma rest_keys_fresh {V W : Type} (key : string) (rest : dict W)
    (acc : dict V) (v : V) :
  ~ In key (dict_keys rest) ->
  (forall k, key = k \/ In k (dict_keys rest) -> dict_mem k acc = false) ->
  forall k, In k (dict_keys rest) -> dict_mem k (dict_set acc key v) = false.
Proof.
  intros Hnot Hacc k Hk.
  rewrite dict_mem_set. rewrite (Hacc k) by (right; exact Hk).
  destruct (String.eqb_spec k key) as [-> | _]; [contradiction | reflexivity].
Qed.

(** The warnings comprehension, in closed form: the triggered rules in
    rule order, appended to what was there. *)
Lemma comp_warnings_spec (conds : dict (pyval -> result bool)) (d : dict pyval) :
  NoDup (dict_keys conds) ->
  forall acc ws,
    (forall k, In k (dict_keys conds) -> dict_mem k acc = false) ->
    comp_warnings conds d acc = OK ws ->
    ws = (acc ++ flat_map (warn_items d) conds)%list.
Proof.
  induction conds as [| [key test] rest IH]; intros Hnd acc ws Hacc H; simpl in *.
  - rewrite app_nil_r. congruence.
  - inversion Hnd as [| ? ? Hnot Hnd']; subst.
    unfold warn_items at 1; simpl. unfold dict_mem in H.
    destruct (dict_get d key) as [v |] eqn:Hget.
    + rewrite (py_get_Some _ _ _ Hget) in H.
      destruct (test v) as [[|] | e]; simpl in H.
      * apply IH in H; [| exact Hnd' | now apply rest_keys_fresh].
        rewrite dict_set_fresh in H by (apply Hacc; now left).
        rewrite <- app_assoc in H. exact H.
      * apply IH in H; auto.
      * discriminate H.
    + apply IH in H; auto.
Qed.

Lemma comp_bools_spec (conds : dict (pyval -> result bool)) (d : dict pyval) :
  NoDup (dict_keys conds) ->
  forall acc bs,
    (forall k, In k (dict_keys conds) -> dict_mem k acc = false) ->
    comp_bools conds d acc = OK bs ->
    bs = (acc ++ flat_map (bool_items d) conds)%list.
Proof.
  induction conds as [| [key test] rest IH]; intros Hnd acc bs Hacc H; simpl in *.
  - rewrite app_nil_r. congruence.
  - inversion Hnd as [| ? ? Hnot Hnd']; subst.
    unfold bool_items at 1; simpl. unfold dict_mem, dict_getitem in H.
    destruct (dict_get d key) as [v |] eqn:Hget; simpl in H.
    + destruct (test v) as [b | e]; simpl in H.
      * apply IH in H; [| exact Hnd' | now apply rest_keys_fresh].
        rewrite dict_set_fresh in H by (apply Hacc; now left).
        rewrite <- app_assoc in H. exact H.
      * discriminate H.
    + apply IH in H; auto.
Qed.

(** Both comprehensions return when every rule returns on the value it
    is given. *)
Lemma comp_warnings_total (conds : dict (pyval -> result bool)) (d : dict pyval) :
  (forall key test v, In (key, test) conds -> dict_get d key = Some v ->
                      exists b, test v = OK b) ->
  forall acc, exists ws, comp_warnings conds d acc = OK ws.
Proof.
  induction conds as [| [key test] rest IH]; intros Hok acc; simpl.
  - eauto.
  - unfold dict_mem.
    destruct (dict_get d key) as [v |] eqn:Hget.
    + rewrite (py_get_Some _ _ _ Hget).
      destruct (Hok key test v) as [b Hb]; [now left | exact Hget |].
      rewrite Hb; simpl.
      destruct b; apply IH; intros; eapply Hok; eauto; now right.
    + apply IH; intros; eapply Hok; eauto; now right.
Qed.

Lemma comp_bools_total (conds : dict (pyval -> result bool)) (d : dict pyval) :
  (forall key test v, In (key, test) conds -> dict_get d key = Some v ->
                      exists b, test v = OK b) ->
  forall acc, exists bs, comp_bools conds d acc = OK bs.
Proof.
  induction conds as [| [key test] rest IH]; intros Hok acc; simpl.
  - eauto.
  - unfold dict_mem, dict_getitem.
    destruct (dict_get d key) as [v |] eqn:Hget; simpl.
    + destruct (Hok key test v) as [b Hb]; [now left | exact Hget |].
      rewrite Hb; simpl.
      apply IH; intros; eapply Hok; eauto; now right.
    + apply IH; intros; eapply Hok; eauto; now right.
Qed.

Lemma conditions_total_on_numbers (key : string) (test : pyval -> result bool)
    (v : pyval) :
  In (key, test) conditions -> is_number v = true -> exists b, test v = OK b.
Proof.
  unfold conditions. simpl.
  intros [E | [E | [E | [E | []]]]] Hv; inversion E; subst;
    destruct v; try discriminate Hv; simpl; eauto.
Qed.

Lemma Status_init_inv (d : dict pyval) (st : Status) :
  Status_init d = OK st ->
  values st = dict_of_items (rule_fields d)
  /\ bools st = flat_map (bool_items d) conditions
  /\ warnings st = flat_map (warn_items d) conditions.
Proof.
  unfold Status_init. intro H.
  bind_inv H. bind_inv H. inversion H; subst; simpl.
  split; [reflexivity |]. split.
  - apply (comp_bools_spec conditions d conditions_NoDup [] a) in Ha;
      [exact Ha | reflexivity].
  - apply (comp_warnings_spec conditions d conditions_NoDup [] a0) in Ha0;
      [exact Ha0 | reflexivity].
Qed.

Lemma Status_init_total (d : dict pyval) :
  (forall c v, In c cond_names -> dict_get d c = Some v -> is_number v = true) ->
  exists st, Status_init d = OK st.
Proof.
  intro Hnum. unfold Status_init.
  assert (Hok : forall key test v, In (key, test) conditions ->
                  dict_get d key = Some v -> exists b, test v = OK b).
  { intros key test v Hin Hget.
    apply (conditions_total_on_numbers key test v Hin).
    apply (Hnum key v); [| exact Hget].
    rewrite <- cond_names_keys. unfold dict_keys.
    change key with (fst (key, test)). now apply in_map. }
  destruct (comp_bools_total conditions d Hok []) as [bs ->].
  destruct (comp_warnings_total conditions d Hok []) as [ws ->].
  simpl. eauto.
Qed.

Lemma rule_of_key_unique {W : Type} (conds : dict W) (c : string) (t1 t2 : W) :
  NoDup (dict_keys conds) -> In (c, t1) conds -> In (c, t2) conds -> t1 = t2.
Proof.
  induction conds as [| [k t] rest IH]; simpl; intros Hnd H1 H2.
  - contradiction.
  - inversion Hnd as [| ? ? Hnot Hnd']; subst.
    assert (Hk : forall t', In (c, t') rest -> In c (dict_keys rest)).
    { intros t' Hin. unfold dict_keys. change c with (fst (c, t')).
      now apply in_map. }
    destruct H1 as [E1 | H1], H2 as [E2 | H2].
    + congruence.
    + inversion E1; subst. exfalso. apply Hnot. eapply Hk; eauto.
    + inversion E2; subst. exfalso. apply Hnot. eapply Hk; eauto.
    + auto.
Qed.

Lemma warn_items_keys (conds : dict (pyval -> result bool)) (d : dict pyval)
    (c : string) :
  In c (dict_keys (flat_map (warn_items d) conds))
  <-> exists test v, In (c, test) conds /\ dict_get d c = Some v /\ test v = OK true.
Proof.
  unfold dict_keys. rewrite in_map_iff. split.
  - intros [[k v] [Hk Hin]]; simpl in Hk; subst k.
    apply in_flat_map in Hin. destruct Hin as [[key test] [Hrule Hitem]].
    unfold warn_items in Hitem; simpl in Hitem.
    destruct (dict_get d key) as [v0 |] eqn:Hget; [| contradiction].
    destruct (test v0) as [[|] | e] eqn:Ht; try contradiction.
    destruct Hitem as [E | []]. inversion E; subst.
    exists test, v. auto.
  - intros [test [v [Hrule [Hget Ht]]]].
    exists (c, v). split; [reflexivity |].
    apply in_flat_map. exists (c, test). split; [exact Hrule |].
    unfold warn_items; simpl. rewrite Hget, Ht. now left.
Qed.

Lemma bool_items_keys (conds : dict (pyval -> result bool)) (d : dict pyval)
    (c : string) :
  In c (dict_keys (flat_map (bool_items d) conds)) -> In c (dict_keys conds).
Proof.
  unfold dict_keys. rewrite !in_map_iff.
  intros [[k b] [Hk Hin]]; simpl in Hk; subst k.
  apply in_flat_map in Hin. destruct Hin as [[key test] [Hrule Hitem]].
  unfold bool_items in Hitem; simpl in Hitem.
  destruct (dict_get d key) as [v0 |]; [| contradiction].
  destruct (test v0) as [b0 | e]; [| contradiction].
  destruct Hitem as [E | []]. inversion E; subst.
  exists (c, test). auto.
Qed.

Lemma rule_fields_keys (d : dict pyval) (c : string) :
  In c (dict_keys (dict_of_items (rule_fields d)))
  <-> In c (dict_keys d) /\ In c cond_names.
Proof.
  rewrite dict_of_items_keys. unfold rule_fields, dict_keys.
  rewrite <- cond_names_keys. rewrite !in_map_iff. split.
  - intros [[k v] [Hk Hin]]; simpl in Hk; subst k.
    apply filter_In in Hin. destruct Hin as [Hin Hc]; simpl in Hc.
    split; [exists (c, v); auto |].
    apply dict_mem_In in Hc. exact Hc.
  - intros [[[k v] [Hk Hin]] Hc]; simpl in Hk; subst k.
    exists (c, v). split; [reflexivity |].
    apply filter_In. split; [exact Hin |]; simpl.
    apply dict_mem_In. exact Hc.
Qed.

(** C2: for every snapshot whose [Status] is built and every rule of the
    table, the rule's name is a key of [warnings] exactly when the snapshot
    holds the key and the rule's predicate is true on its value; the keys of
    [warnings] are keys of [values]; a COLD value of 15 gives no COLD
    warning and a value of 14 gives one.  The [Status] is built whenever the
    values of the rule fields present are numbers. *)
Theorem warnings_iff_predicate (d : dict pyval) :
  ((forall c v, In c cond_names -> dict_get d c = Some v -> is_number v = true) ->
   exists st, Status_init d = OK st)
  /\ forall st, Status_init d = OK st ->
       (forall c test, In (c, test) conditions ->
          (dict_mem c (warnings st) = true
           <-> exists v, dict_get d c = Some v /\ test v = OK true))
       /\ (forall c, dict_mem c (warnings st) = true ->
                     dict_mem c (values st) = true)
       /\ (dict_get d "COLD" = Some (VInt 15) ->
           dict_mem "COLD" (warnings st) = false)
       /\ (dict_get d "COLD" = Some (VInt 14) ->
           dict_mem "COLD" (warnings st) = true).
Proof.
  split; [apply Status_init_total |].
  intros st Hst.
  destruct (Status_init_inv d st Hst) as [Hv [_ Hw]].
  assert (Hiff : forall c test, In (c, test) conditions ->
            (dict_mem c (warnings st) = true
             <-> exists v, dict_get d c = Some v /\ test v = OK true)).
  { intros c test Hin. rewrite dict_mem_In, Hw, warn_items_keys. split.
    - intros [test' [v [Hin' [Hget Ht]]]].
      rewrite (rule_of_key_unique conditions c test test' conditions_NoDup Hin Hin').
      eauto.
    - intros [v [Hget Ht]]. eauto. }
  assert (Hcold : In ("COLD", fun x => py_lt x (num_of_Z 15)) conditions).
  { simpl. right. left. reflexivity. }
  split; [exact Hiff |]. split; [| split].
  - intros c Hc. rewrite dict_mem_In in Hc. rewrite Hw, warn_items_keys in Hc.
    destruct Hc as [test [v [Hin [Hget _]]]].
    rewrite dict_mem_In, Hv, rule_fields_keys. split.
    + apply dict_get_In in Hget. unfold dict_keys.
      change c with (fst (c, v)). now apply in_map.
    + rewrite <- cond_names_keys. unfold dict_keys.
      change c with (fst (c, test)). now apply in_map.
  - intro Hget.
    destruct (dict_mem "COLD" (warnings st)) eqn:Hm; [| reflexivity].
    apply (Hiff _ _ Hcold) in Hm. destruct Hm as [v [Hget' Ht]].
    rewrite Hget in Hget'. inversion Hget'; subst. discriminate Ht.
  - intro Hget. apply (Hiff _ _ Hcold). exists (VInt 14). auto.
Qed.

Lemma warn_items_keys_incl (conds : dict (pyval -> result bool)) (d : dict pyval)
    (c : string) :
  In c (dict_keys (flat_map (warn_items d) conds)) -> In c (dict_keys conds).
Proof.
  rewrite warn_items_keys. intros [test [v [Hin _]]].
  unfold dict_keys. change c with (fst (c, test)). now apply in_map.
Qed.

(** The first key of the warnings is the first rule name, in rule order,
    that is a key of the warnings. *)
Lemma first_warning_in_rule_order (conds : dict (pyval -> result bool))
    (d : dict pyval) :
  NoDup (dict_keys conds) ->
  match flat_map (warn_items d) conds with
  | (name, _) :: _ => name
  | [] => ""
  end =
  match find (fun c => dict_mem c (flat_map (warn_items d) conds)) (dict_keys conds) with
  | Some c => c
  | None => ""
  end.
Proof.
  induction conds as [| [key test] rest IH]; intro Hnd; simpl.
  - reflexivity.
  - inversion Hnd as [| ? ? Hnot Hnd']; subst.
    destruct (warn_items d (key, test)) as [| [k0 v0] tl] eqn:Hitem; simpl.
    + destruct (dict_mem key (flat_map (warn_items d) rest)) eqn:Hm.
      * apply dict_mem_In, warn_items_keys_incl in Hm. contradiction.
      * now apply IH.
    + assert (k0 = key) as ->.
      { unfold warn_items in Hitem; simpl in Hitem.
        destruct (dict_get d key) as [v |]; [| discriminate Hitem].
        destruct (test v) as [[|] | e]; try discriminate Hitem.
        congruence. }
      unfold dict_mem; simpl. rewrite String.eqb_refl. reflexivity.
Qed.

(** C8: for every [Status] that is built, [get_most_important_warning]
    returns the first name, in the rule-table order PROB_RAIN, COLD, UV,
    HOT, that is a key of [warnings], and the empty string when [warnings]
    is empty. *)
Theorem most_important_warning_is_first_rule (d : dict pyval) (st : Status) :
  Status_init d = OK st ->
  dict_keys conditions = ["PROB_RAIN"; "COLD"; "UV"; "HOT"]
  /\ get_most_important_warning st =
     match find (fun c => dict_mem c (warnings st)) (dict_keys conditions) with
     | Some c => c
     | None => ""
     end
  /\ (warnings st = [] -> get_most_important_warning st = "").
Proof.
  intro Hst. destruct (Status_init_inv d st Hst) as [_ [_ Hw]].
  split; [reflexivity |]. split.
  - unfold get_most_important_warning. rewrite Hw.
    apply first_warning_in_rule_order. apply conditions_NoDup.
  - unfold get_most_important_warning. intros ->. reflexivity.
Qed.

(** ** The fields the rules do not read *)

Lemma dict_get_filter {V : Type} (P : string -> bool) (d : dict V) (k : string) :
  P k = true -> dict_get (filter (fun kv => P (fst kv)) d) k = dict_get d k.
Proof.
  intro HP. induction d as [| [k0 v0] d IH]; simpl.
  - reflexivity.
  - destruct (String.eqb_spec k k0) as [<- | Hne].
    + rewrite HP. simpl. rewrite String.eqb_refl. reflexivity.
    + destruct (P k0); simpl.
      * destruct (String.eqb_spec k k0); [contradiction | exact IH].
      * exact IH.
Qed.

Lemma filter_set_other {V : Type} (P : string -> bool) (d : dict V) (k : string)
    (v : V) :
  P k = false ->
  filter (fun kv => P (fst kv)) (dict_set d k v) = filter (fun kv => P (fst kv)) d.
Proof.
  intro HP. induction d as [| [k0 v0] d IH]; simpl.
  - rewrite HP. reflexivity.
  - destruct (String.eqb_spec k k0) as [<- | Hne]; simpl.
    + rewrite HP. reflexivity.
    + rewrite IH. reflexivity.
Qed.

Lemma comp_bools_ext (conds : dict (pyval -> result bool)) (d d' : dict pyval) :
  (forall k, In k (dict_keys conds) -> dict_get d k = dict_get d' k) ->
  forall acc, comp_bools conds d acc = comp_bools conds d' acc.
Proof.
  induction conds as [| [key test] rest IH]; intros Hext acc; simpl.
  - reflexivity.
  - unfold dict_mem, dict_getitem.
    rewrite <- (Hext key) by now left.
    destruct (dict_get d key) as [v |]; simpl.
    + destruct (test v); simpl; [| reflexivity].
      apply IH. intros k Hk. apply Hext. now right.
    + apply IH. intros k Hk. apply Hext. now right.
Qed.

Lemma comp_warnings_ext (conds : dict (pyval -> result bool)) (d d' : dict pyval) :
  (forall k, In k (dict_keys conds) -> dict_get d k = dict_get d' k) ->
  forall acc, comp_warnings conds d acc = comp_warnings conds d' acc.
Proof.
  induction conds as [| [key test] rest IH]; intros Hext acc; simpl.
  - reflexivity.
  - unfold dict_mem, py_get.
    rewrite <- (Hext key) by now left.
    assert (Hrest : forall k, In k (dict_keys rest) -> dict_get d k = dict_get d' k).
    { intros k Hk. apply Hext. now right. }
    destruct (dict_get d key) as [v |]; simpl.
    + destruct (test v) as [[|] | e]; simpl; auto.
    + auto.
Qed.

Lemma Status_init_ext (d d' : dict pyval) :
  rule_fields d = rule_fields d' -> Status_init d = Status_init d'.
Proof.
  intro Hf.
  assert (Hget : forall k, In k (dict_keys conditions) -> dict_get d k = dict_get d' k).
  { intros k Hk. apply dict_mem_In in Hk.
    rewrite <- (dict_get_filter (fun c => dict_mem c conditions) d k Hk).
    rewrite <- (dict_get_filter (fun c => dict_mem c conditions) d' k Hk).
    fold (rule_fields d). fold (rule_fields d'). rewrite Hf. reflexivity. }
  unfold Status_init. fold (rule_fields d). fold (rule_fields d').
  rewrite Hf.
  rewrite (comp_bools_ext conditions d d' Hget).
  rewrite (comp_warnings_ext conditions d d' Hget).
  reflexivity.
Qed.

Lemma rule_fields_set_other (d : dict pyval) (k : string) (v : pyval) :
  dict_mem k conditions = false -> rule_fields (dict_set d k v) = rule_fields d.
Proof.
  intro Hk. unfold rule_fields.
  apply (filter_set_other (fun c => dict_mem c conditions) d k v Hk).
Qed.

Lemma Status_keys (d : dict pyval) (st : Status) :
  Status_init d = OK st ->
  incl (dict_keys (values st)) cond_names
  /\ incl (dict_keys (bools st)) cond_names
  /\ incl (dict_keys (warnings st)) cond_names.
Proof.
  intro Hst. destruct (Status_init_inv d st Hst) as [Hv [Hb Hw]].
  rewrite Hv, Hb, Hw. rewrite <- cond_names_keys at 2 3.
  repeat split; intros c Hc.
  - now apply rule_fields_keys in Hc.
  - now apply bool_items_keys in Hc.
  - now apply warn_items_keys_incl in Hc.
Qed.

(** The snapshot [simplify_hour] builds, field by field. *)
Lemma simplify_hour_inv (h sd : dict pyval) :
  simplify_hour h = OK sd ->
  exists t c w scaled p,
    py_sub_float (py_get h "temp") lit_273_15 = OK t
    /\ py_int t = OK c
    /\ py_int (py_get h "wind_speed") = OK w
    /\ py_mul_int (py_get h "pop") 100 = OK scaled
    /\ py_int scaled = OK p
    /\ (sd = [("UV", py_get h "uvi"); ("COLD", VInt c); ("HOT", VInt c);
              ("WIND", VInt w); ("PROB_RAIN", VInt p)]
        \/ exists r,
             sd = [("UV", py_get h "uvi"); ("COLD", VInt c); ("HOT", VInt c);
                   ("WIND", VInt w); ("PROB_RAIN", VInt p); ("RAINDROPS", r)]).
Proof.
  unfold simplify_hour. intro H.
  apply bind_OK_inv in H. destruct H as [t [Ht H]].
  apply bind_OK_inv in H. destruct H as [c [Hc H]].
  apply bind_OK_inv in H. destruct H as [c' [Hc' H]].
  apply bind_OK_inv in H. destruct H as [w [Hw H]].
  apply bind_OK_inv in H. destruct H as [scaled [Hs H]].
  apply bind_OK_inv in H. destruct H as [p [Hp H]].
  assert (c' = c) as -> by congruence.
  exists t, c, w, scaled, p. repeat (split; [assumption |]).
  simpl in H.
  destruct (py_truthy (py_get h "rain")); [| left; congruence].
  apply bind_OK_inv in H. destruct H as [r1 [_ H]].
  destruct (py_truthy r1); [| left; congruence].
  apply bind_OK_inv in H. destruct H as [r2 [_ H]].
  apply bind_OK_inv in H. destruct H as [heavy [_ H]].
  destruct heavy; [| left; congruence].
  apply bind_OK_inv in H. destruct H as [r3 [_ H]].
  right. exists r3. congruence.
Qed.

(** C10: the keys of [values], [bools] and [warnings] are among PROB_RAIN,
    COLD, UV, HOT; the [Status] depends on the snapshot only through these
    four fields, so writing WIND or RAINDROPS into a snapshot changes
    neither the [Status], nor the good/bad decision, nor the message; and
    the [Status] of a snapshot built by [simplify_hour] is that of its UV,
    COLD, HOT and PROB_RAIN fields alone. *)
Theorem wind_and_raindrops_never_warn :
  (forall d st, Status_init d = OK st ->
     incl (dict_keys (values st)) cond_names
     /\ incl (dict_keys (bools st)) cond_names
     /\ incl (dict_keys (warnings st)) cond_names)
  /\ (forall d d', rule_fields d = rule_fields d' -> Status_init d = Status_init d')
  /\ (forall d k v, k = "WIND" \/ k = "RAINDROPS" ->
        Status_init (dict_set d k v) = Status_init d
        /\ (st <- Status_init (dict_set d k v) ;; OK (Status_bool st))
           = (st <- Status_init d ;; OK (Status_bool st))
        /\ (st <- Status_init (dict_set d k v) ;; get_long_message st)
           = (st <- Status_init d ;; get_long_message st))
  /\ (forall h sd, simplify_hour h = OK sd ->
        exists c p,
          Status_init sd =
          Status_init [("UV", py_get h "uvi"); ("COLD", VInt c);
                       ("HOT", VInt c); ("PROB_RAIN", VInt p)]).
Proof.
  split; [exact Status_keys |].
  split; [exact Status_init_ext |].
  split.
  - intros d k v Hk.
    assert (E : Status_init (dict_set d k v) = Status_init d).
    { apply Status_init_ext. apply rule_fields_set_other.
      destruct Hk as [-> | ->]; reflexivity. }
    rewrite E. auto.
  - intros h sd H.
    destruct (simplify_hour_inv h sd H) as [t [c [w [scaled [p [_ [_ [_ [_ [_ Hsd]]]]]]]]]].
    exists c, p. apply Status_init_ext.
    destruct Hsd as [-> | [r ->]]; reflexivity.
Qed.

(** ** Snapshot normalization *)

Lemma truncates_integer (z : Z) : truncates (inject_Z z) z.
Proof.
  unfold truncates, Qle, Qlt; simpl. lia.
Qed.

Lemma trunc_float_truncates (f : spec_float) (z : Z) :
  trunc_float f = OK z ->
  exists q, float_value f = Some q /\ truncates q z.
Proof.
  destruct f as [s | s | | s m e]; simpl; intro H; try discriminate H.
  - inversion H; subst. exists (inject_Z 0). split; [reflexivity |].
    apply truncates_integer.
  - inversion H; subst; clear H.
    exists (Q_of_dyadic (cond_Zopp s (Z.pos m)) e). split; [reflexivity |].
    unfold Q_of_dyadic. destruct (Z.leb_spec 0 e) as [He | He].
    + rewrite Z.shiftl_mul_pow2 by exact He.
      replace (cond_Zopp s (Z.pos m * 2 ^ e)) with (cond_Zopp s (Z.pos m) * 2 ^ e)
        by (unfold cond_Zopp; destruct s; [apply Z.mul_opp_l | reflexivity]).
      apply truncates_integer.
    + rewrite Z.shiftl_div_pow2 by lia.
      assert (HP : 0 < 2 ^ (- e)) by (apply Z.pow_pos_nonneg; lia).
      pose proof (Z.mul_div_le (Z.pos m) _ HP) as Hlo.
      pose proof (Z.mul_succ_div_gt (Z.pos m) _ HP) as Hhi.
      set (P := 2 ^ (- e)) in *. set (k := Z.pos m / P) in *.
      unfold truncates, Qle, Qlt; simpl. rewrite (Z2Pos.id P HP).
      destruct s; simpl; nia.
Qed.

Lemma py_int_truncates (x : pyval) (z : Z) :
  py_int x = OK z -> exists q, pyval_value x = Some q /\ truncates q z.
Proof.
  destruct x as [| n | f | d]; simpl; intro H; try discriminate H.
  - inversion H; subst. exists (inject_Z z). split; [reflexivity |].
    apply truncates_integer.
  - now apply trunc_float_truncates.
Qed.

(** C7: in every snapshot [simplify_hour] builds, COLD and HOT both hold
    the integer part, toward zero, of the binary64 difference of the Kelvin
    temperature and 273.15; PROB_RAIN holds the integer part of the
    probability times 100; WIND holds the integer part of the wind speed. *)
Theorem simplify_hour_truncates (h sd : dict pyval) :
  simplify_hour h = OK sd ->
  exists t c w scaled p,
    py_sub_float (py_get h "temp") lit_273_15 = OK t
    /\ py_int t = OK c
    /\ (exists q, pyval_value t = Some q /\ truncates q c)
    /\ dict_get sd "COLD" = Some (VInt c)
    /\ dict_get sd "HOT" = Some (VInt c)
    /\ py_int (py_get h "wind_speed") = OK w
    /\ (exists q, pyval_value (py_get h "wind_speed") = Some q /\ truncates q w)
    /\ dict_get sd "WIND" = Some (VInt w)
    /\ py_mul_int (py_get h "pop") 100 = OK scaled
    /\ py_int scaled = OK p
    /\ (exists q, pyval_value scaled = Some q /\ truncates q p)
    /\ dict_get sd "PROB_RAIN" = Some (VInt p).
Proof.
  intro H.
  destruct (simplify_hour_inv h sd H)
    as [t [c [w [scaled [p [Ht [Hc [Hw [Hs [Hp Hsd]]]]]]]]]].
  exists t, c, w, scaled, p.
  pose proof (py_int_truncates _ _ Hc) as Qc.
  pose proof (py_int_truncates _ _ Hw) as Qw.
  pose proof (py_int_truncates _ _ Hp) as Qp.
  destruct Hsd as [-> | [r ->]]; repeat (split; [assumption || reflexivity |]);
    reflexivity.
Qed.

(** ** Range compression *)

Lemma good_hours_filter (arr : list (Z * bool)) :
  good_hours arr = map fst (filter snd arr).
Proof.
  unfold good_hours. f_equal. apply filter_ext.
  intros [h []]; reflexivity.
Qed.

Lemma maximal_runs_head (x : Z) (rest : list Z) :
  exists b runs, maximal_runs (x :: rest) = (x, b) :: runs.
Proof.
  simpl. destruct (maximal_runs rest) as [| [a b] runs]; [eauto |].
  destruct (a =? x + 1); eauto.
Qed.

Lemma hours_of_run_single (x : Z) : hours_of_run (x, x) = [x].
Proof.
  unfold hours_of_run; simpl. replace (x - x + 1) with 1 by lia.
  simpl. f_equal. lia.
Qed.

Lemma hours_of_run_step (x b : Z) :
  x + 1 <= b -> hours_of_run (x, b) = x :: hours_of_run (x + 1, b).
Proof.
  intro Hle. unfold hours_of_run; simpl.
  replace (Z.to_nat (b - x + 1)) with (S (Z.to_nat (b - (x + 1) + 1))) by lia.
  simpl. f_equal; [lia |].
  rewrite <- seq_shift, map_map. apply map_ext. intro i. lia.
Qed.

Lemma maximal_runs_sound (hours : list Z) :
  flat_map hours_of_run (maximal_runs hours) = hours
  /\ Forall (fun r => fst r <= snd r) (maximal_runs hours)
  /\ separated (maximal_runs hours).
Proof.
  induction hours as [| x rest [IHflat [IHle IHsep]]]; simpl.
  - repeat split. constructor.
  - destruct rest as [| y rest'].
    + simpl. rewrite hours_of_run_single. repeat split.
      constructor; [simpl; lia | constructor].
    + destruct (maximal_runs_head y rest') as [b [runs Hruns]].
      rewrite Hruns in *.
      inversion IHle as [| ? ? Hyb IHle']; subst; simpl in Hyb.
      destruct (Z.eqb_spec y (x + 1)) as [-> | Hne].
      * simpl in *. rewrite hours_of_run_step by exact Hyb.
        simpl. rewrite IHflat. repeat split.
        -- constructor; [simpl; lia | exact IHle'].
        -- destruct runs; [exact I | exact IHsep].
      * simpl in *. rewrite hours_of_run_single. simpl. rewrite IHflat.
        repeat split.
        -- constructor; [simpl; lia | exact IHle].
        -- exact Hne.
        -- exact IHsep.
Qed.

(** What [groupby] over [enumerate] computes, against [maximal_runs]. *)
Lemma groupby_enumerate_runs (hours : list Z) (i : Z) :
  let gs := groupby Z.eqb (fun pair : Z * Z => snd pair - fst pair)
                    (enumerate_from i hours) in
  map (fun kb => group_ends (snd kb)) gs = maximal_runs hours
  /\ match gs with
     | (k, g) :: _ =>
         exists x rest g', hours = x :: rest /\ k = x - i /\ g = (i, x) :: g'
     | [] => True
     end.
Proof.
  revert i. induction hours as [| x rest IH]; intro i; simpl.
  - split; [reflexivity | exact I].
  - destruct (IH (i + 1)) as [IHmap IHhd]. clear IH.
    destruct (groupby Z.eqb (fun pair : Z * Z => snd pair - fst pair)
                      (enumerate_from (i + 1) rest)) as [| [k g] gs].
    + simpl in *. rewrite <- IHmap. split; [reflexivity |].
      exists x, rest, []. auto.
    + destruct IHhd as [y [rest' [g' [Hrest [Hk Hg]]]]]. subst k g.
      simpl in IHmap. rewrite <- IHmap.
      unfold group_ends at 1; simpl.
      destruct (Z.eqb_spec (x - i) (y - (i + 1))) as [E | E].
      * assert (y = x + 1) as -> by lia.
        rewrite Z.eqb_refl. simpl. split.
        -- unfold group_ends; simpl. reflexivity.
        -- exists x, rest, ((i + 1, x + 1) :: g'). subst rest. auto.
      * destruct (Z.eqb_spec y (x + 1)) as [E' | _]; [lia |].
        simpl. split.
        -- unfold group_ends; simpl. reflexivity.
        -- exists x, rest, []. auto.
Qed.

Lemma hour_pairs_runs (hours : list Z) : hour_pairs hours = maximal_runs hours.
Proof.
  unfold hour_pairs. apply (groupby_enumerate_runs hours 0).
Qed.

Lemma existsb_good_hours (arr : list (Z * bool)) :
  existsb snd arr = match good_hours arr with [] => false | _ :: _ => true end.
Proof.
  unfold good_hours.
  induction arr as [| [h b] arr IH]; simpl; [reflexivity |].
  destruct b; simpl; [reflexivity | exact IH].
Qed.

Lemma emoji_getitem (c : string) :
  In c cond_names -> dict_getitem emojis c = OK (emoji_of c).
Proof.
  unfold cond_names. simpl.
  intros [<- | [<- | [<- | [<- | []]]]]; reflexivity.
Qed.

(** The second loop of [check_report] never raises on the rule names. *)
Lemma report_lines_closed (names : list string) (hours : list (Z * Status)) :
  incl names cond_names ->
  report_lines names hours = OK (flat_map (report_line hours) names).
Proof.
  induction names as [| c names IH]; intro Hincl; simpl.
  - reflexivity.
  - rewrite emoji_getitem by (apply Hincl; now left). simpl.
    rewrite IH by (intros k Hk; apply Hincl; now right). simpl.
    rewrite existsb_good_hours.
    set (tl := flat_map (report_line hours) names).
    unfold report_line.
    destruct (good_hours (cond_arr c hours)); reflexivity.
Qed.

(** C4: the compression keeps the hours whose boolean is true, cuts them
    into the maximal runs of consecutive integers, renders a run of one
    hour as that number and a longer run as first-last, and joins the
    tokens with a comma and a space.  True hours 7,8,9,13,15,16 give
    7-9, 13, 15-16; the single hour 5 gives 5; no hour gives the empty
    string.  A rule without a triggered hour contributes no line to the
    report. *)
Theorem range_compression :
  (forall arr, good_hours arr = map fst (filter snd arr))
  /\ (forall arr,
        condition_pairs_to_string arr =
        join ", " (map render_pair (maximal_runs (good_hours arr))))
  /\ (forall hours,
        flat_map hours_of_run (maximal_runs hours) = hours
        /\ Forall (fun r => fst r <= snd r) (maximal_runs hours)
        /\ separated (maximal_runs hours))
  /\ (forall a b,
        render_pair (a, a) = str_of_Z a
        /\ (a <> b -> render_pair (a, b) = str_of_Z a ++ "-" ++ str_of_Z b))
  /\ condition_pairs_to_string
       [(7, true); (8, true); (9, true); (10, false); (13, true); (15, true);
        (16, true)] = "7-9, 13, 15-16"
  /\ condition_pairs_to_string [(5, true)] = "5"
  /\ condition_pairs_to_string [] = ""
  /\ (forall hours,
        report_lines (dict_keys conditions) hours =
        OK (flat_map (report_line hours) cond_names)).
Proof.
  split; [exact good_hours_filter |].
  split.
  { intro arr. unfold condition_pairs_to_string.
    rewrite hour_pairs_runs. reflexivity. }
  split; [exact maximal_runs_sound |].
  split.
  { intros a b. unfold render_pair; simpl. split.
    - rewrite Z.eqb_refl. reflexivity.
    - intro Hne. destruct (Z.eqb_spec a b); [contradiction | reflexivity]. }
  split; [vm_compute; reflexivity |].
  split; [vm_compute; reflexivity |].
  split; [vm_compute; reflexivity |].
  intro hours. rewrite cond_names_keys.
  apply report_lines_closed. apply incl_refl.
Qed.

(** ** The report *)

Lemma good_hours_nil_iff (hours : list (Z * Status)) (c : string) :
  good_hours (cond_arr c hours) = [] <-> ~ triggers hours c.
Proof.
  unfold triggers, good_hours.
  induction hours as [| [hh st] hours IH]; simpl.
  - split; [intros _ [? [? [[] _]]] | reflexivity].
  - destruct (dict_get (bools st) c) as [[|] |] eqn:Hget; simpl.
    + split; [discriminate |].
      intro Hno. exfalso. apply Hno. exists hh, st. auto.
    + rewrite IH. split; intros Hno [hh' [st' [Hin Hb]]]; apply Hno.
      * destruct Hin as [E | Hin]; [inversion E; subst; congruence |].
        exists hh', st'. auto.
      * exists hh', st'. auto.
    + rewrite IH. split; intros Hno [hh' [st' [Hin Hb]]]; apply Hno.
      * destruct Hin as [E | Hin]; [inversion E; subst; congruence |].
        exists hh', st'. auto.
      * exists hh', st'. auto.
Qed.

Lemma report_nil_iff (hours : list (Z * Status)) (names : list string) :
  flat_map (report_line hours) names = []
  <-> forall c, In c names -> ~ triggers hours c.
Proof.
  induction names as [| c names IH]; simpl.
  - split; [intros _ ? [] | reflexivity].
  - split.
    + intros H k [<- | Hk].
      * apply good_hours_nil_iff. unfold report_line in H.
        destruct (good_hours (cond_arr c hours)); [reflexivity | discriminate H].
      * apply app_eq_nil in H. destruct H as [_ H]. now apply IH.
    + intro H.
      assert (Hc : good_hours (cond_arr c hours) = []).
      { apply good_hours_nil_iff. apply H. now left. }
      unfold report_line at 1. rewrite Hc. simpl.
      apply IH. intros k Hk. apply H. now right.
Qed.

(** C9: when the hours kept for the report are gathered and no rule is
    triggered on any of them, [check_report] leaves [is_good] true, an
    empty [warning] and the fixed message "Good weather! " followed by
    U+1F917; when some rule is triggered on some kept hour it leaves
    [is_good] false. *)
Theorem report_good_iff_no_trigger (lh : pyval -> result Z) (now_hour : Z)
    (reply : list (dict pyval)) (last_hour : Z) (hours : list (Z * Status))
    (w : World) :
  0 <= last_hour <= 24 ->
  gather_hours lh now_hour last_hour (firstn 24 reply) = OK hours ->
  ((forall c, In c cond_names -> ~ triggers hours c) ->
   check_report lh now_hour (OK reply) last_hour w =
   (OK tt,
    {| weather := {| is_good := true; warning := "";
                     message := "Good weather! " ++ utf8 [240; 159; 164; 151]%nat |};
       outbox := outbox w |}))
  /\ ((exists c, In c cond_names /\ triggers hours c) ->
      check_report lh now_hour (OK reply) last_hour w =
      (OK tt,
       {| weather :=
            {| is_good := false; warning := "prepare for the day";
               message := join newline (flat_map (report_line hours) cond_names) |};
          outbox := outbox w |})).
Proof.
  intros Hlast Hgather.
  assert (Hassert : py_assert ((0 <=? last_hour) && (last_hour <=? 24)) = OK tt).
  { destruct (Z.leb_spec 0 last_hour); [| lia].
    destruct (Z.leb_spec last_hour 24); [reflexivity | lia]. }
  unfold check_report, mbind, lift.
  rewrite Hassert, Hgather.
  rewrite cond_names_keys, report_lines_closed by apply incl_refl.
  destruct (flat_map (report_line hours) cond_names) as [| line lines] eqn:Hrv.
  - split.
    + intros _. reflexivity.
    + intros [c [Hc Htrig]]. exfalso.
      apply (proj1 (report_nil_iff hours cond_names) Hrv c Hc Htrig).
  - split.
    + intro Hno. apply report_nil_iff in Hno. congruence.
    + intros _. reflexivity.
Qed.

(** ** The body of [try] *)

Lemma check_report_cases (lh : pyval -> result Z) (now_hour : Z)
    (fetch : result (list (dict pyval))) (last_hour : Z) :
  (exists e, forall w, fst (check_report lh now_hour fetch last_hour w) = Raise e)
  \/ (exists wn, forall w,
        fst (check_report lh now_hour fetch last_hour w) = OK tt
        /\ weather (snd (check_report lh now_hour fetch last_hour w)) = wn
        /\ outbox (snd (check_report lh now_hour fetch last_hour w)) = outbox w).
Proof.
  unfold check_report, mbind, lift.
  destruct (py_assert ((0 <=? last_hour) && (last_hour <=? 24))) as [u | e];
    [| left; exists e; reflexivity].
  destruct fetch as [reply | e]; [| left; exists e; reflexivity].
  destruct (gather_hours lh now_hour last_hour (firstn 24 reply)) as [hours | e];
    [| left; exists e; reflexivity].
  destruct (report_lines (dict_keys conditions) hours) as [[| line lines] | e];
    [| | left; exists e; reflexivity];
    right; eexists; intro w; simpl; repeat split; reflexivity.
Qed.

Lemma check_next_hour_cases (fetch : result (list (dict pyval))) :
  (exists e, forall w, fst (check_next_hour fetch w) = Raise e)
  \/ (exists wn, forall w,
        fst (check_next_hour fetch w) = OK tt
        /\ weather (snd (check_next_hour fetch w)) = wn
        /\ outbox (snd (check_next_hour fetch w)) = outbox w).
Proof.
  unfold check_next_hour, mbind, lift.
  destruct fetch as [[| h0 response] | e];
    [left; exists IndexError; reflexivity | | left; exists e; reflexivity].
  destruct (simplify_hour h0) as [sd | e]; [| left; exists e; reflexivity].
  destruct (Status_init sd) as [st | e]; [| left; exists e; reflexivity].
  destruct (Status_bool st).
  - right; eexists; intro w; simpl; repeat split; reflexivity.
  - simpl. destruct (get_long_message st) as [msg | e].
    + right; eexists; intro w; simpl; repeat split; reflexivity.
    + left; exists e; reflexivity.
Qed.

Lemma update_cases (sent : result unit) :
  (exists e, sent = Raise e /\ forall w, update sent w = (Raise e, w))
  \/ (sent = OK tt
      /\ forall w, fst (update sent w) = OK tt
                   /\ weather (snd (update sent w)) = weather w
                   /\ exists n, outbox (snd (update sent w)) = (outbox w ++ [n])%list).
Proof.
  unfold update, mbind, get_weather, post.
  destruct sent as [[] | e].
  - right. split; [reflexivity |]. intro w; simpl. eauto.
  - left. exists e. auto.
Qed.

Lemma report_branch_cases (env : CycleEnv) :
  (exists e, forall w, fst (report_branch env w) = Raise e)
  \/ (forall w, fst (report_branch env w) = OK tt
                /\ exists n, outbox (snd (report_branch env w)) = (outbox w ++ [n])%list).
Proof.
  unfold report_branch, mbind.
  destruct (check_report_cases (local_hour env) (report_now_hour env)
              (report_fetch env) 24) as [[e He] | [wn Hok]].
  - left. exists e. intro w. specialize (He w).
    destruct (check_report _ _ _ _ w) as [[u | e'] w1]; simpl in *; congruence.
  - destruct (update_cases (post_report env)) as [[e [_ He]] | [_ Hup]].
    + left. exists e. intro w. destruct (Hok w) as [H1 _].
      destruct (check_report _ _ _ _ w) as [[u | e'] w1]; simpl in *;
        [rewrite He; reflexivity | discriminate H1].
    + right. intro w. destruct (Hok w) as [H1 [_ H3]].
      destruct (check_report _ _ _ _ w) as [[u | e'] w1]; simpl in *;
        [| discriminate H1].
      destruct (Hup w1) as [U1 [_ [n U3]]].
      split; [exact U1 |]. exists n. rewrite U3, H3. reflexivity.
Qed.

Lemma regular_branch_cases (env : CycleEnv) :
  (exists e, forall w, fst (regular_branch env w) = Raise e)
  \/ (exists good, forall w,
        fst (regular_branch env w) = OK tt
        /\ is_good (weather (snd (regular_branch env w))) = good
        /\ exists new,
             outbox (snd (regular_branch env w)) = (outbox w ++ new)%list
             /\ List.length new = if good then 0%nat else 1%nat).
Proof.
  unfold regular_branch, mbind, get_weather, when.
  destruct (check_next_hour_cases (next_hour_fetch env)) as [[e He] | [wn Hok]].
  - left. exists e. intro w. specialize (He w).
    destruct (check_next_hour _ w) as [[u | e'] w1]; simpl in *; congruence.
  - destruct (is_good wn) eqn:Hgood.
    + right. exists true. intro w. destruct (Hok w) as [H1 [H2 H3]].
      destruct (check_next_hour _ w) as [[u | e'] w1]; simpl in *;
        [| discriminate H1].
      subst wn. rewrite Hgood. simpl.
      repeat split; [exact Hgood |]. exists []. rewrite app_nil_r. auto.
    + destruct (update_cases (post_regular env)) as [[e [_ He]] | [_ Hup]].
      * left. exists e. intro w. destruct (Hok w) as [H1 [H2 _]].
        destruct (check_next_hour _ w) as [[u | e'] w1]; simpl in *;
          [| discriminate H1].
        subst wn. rewrite Hgood. simpl. rewrite He. reflexivity.
      * right. exists false. intro w. destruct (Hok w) as [H1 [H2 H3]].
        destruct (check_next_hour _ w) as [[u | e'] w1]; simpl in *;
          [| discriminate H1].
        subst wn. rewrite Hgood. simpl.
        destruct (Hup w1) as [U1 [U2 [n U3]]].
        split; [exact U1 |]. split; [rewrite U2; exact Hgood |].
        exists [n]. rewrite U3, H3. auto.
Qed.

Lemma try_body_branches (l : Loop) (env : CycleEnv) :
  try_body l env =
  (_ <~ when (report_is_triggered l (now_report env)) (report_branch env) ;;
   when (regular_is_triggered l (now_regular env)) (regular_branch env)).
Proof. reflexivity. Qed.

(** The body of [try] either raises on every world, or returns on every
    world after the posts of the report check and of the regular check. *)
Lemma try_body_spec (l : Loop) (env : CycleEnv) :
  (exists e, forall w, fst (try_body l env w) = Raise e)
  \/ (forall w,
        fst (try_body l env w) = OK tt
        /\ exists rep reg,
             outbox (snd (try_body l env w)) = (outbox w ++ rep ++ reg)%list
             /\ (if report_is_triggered l (now_report env)
                 then List.length rep = 1%nat else rep = [])
             /\ (if regular_is_triggered l (now_regular env)
                 then (if is_good (weather (snd (try_body l env w)))
                       then reg = [] else List.length reg = 1%nat)
                 else reg = [])).
Proof.
  rewrite try_body_branches. unfold mbind, when, ret.
  destruct (report_is_triggered l (now_report env)).
  - destruct (report_branch_cases env) as [[e He] | Hok].
    { left. exists e. intro w. specialize (He w).
      destruct (report_branch env w) as [[u | e'] w1]; simpl in *; congruence. }
    destruct (regular_is_triggered l (now_regular env)).
    + destruct (regular_branch_cases env) as [[e He] | [good Hg]].
      { left. exists e. intro w. destruct (Hok w) as [H1 _].
        destruct (report_branch env w) as [[u | e'] w1]; simpl in *;
          [apply He | discriminate H1]. }
      right. intro w. destruct (Hok w) as [H1 [n Hn]].
      destruct (report_branch env w) as [[u | e'] w1]; simpl in *;
        [| discriminate H1].
      destruct (Hg w1) as [G1 [G2 [new [G3 G4]]]].
      split; [exact G1 |]. exists [n], new.
      split; [rewrite G3, Hn, <- app_assoc; reflexivity |].
      split; [reflexivity |]. rewrite G2.
      destruct good; [destruct new; [reflexivity | discriminate G4] | exact G4].
    + right. intro w. destruct (Hok w) as [H1 [n Hn]].
      destruct (report_branch env w) as [[u | e'] w1]; simpl in *;
        [| discriminate H1].
      split; [reflexivity |]. exists [n], [].
      rewrite Hn. auto.
  - simpl. destruct (regular_is_triggered l (now_regular env)).
    + destruct (regular_branch_cases env) as [[e He] | [good Hg]].
      { left. exists e. exact He. }
      right. intro w.
      destruct (Hg w) as [G1 [G2 [new [G3 G4]]]].
      split; [exact G1 |]. exists [], new.
      split; [rewrite G3; reflexivity |].
      split; [reflexivity |]. rewrite G2.
      destruct good; [destruct new; [reflexivity | discriminate G4] | exact G4].
    + right. intro w. simpl. split; [reflexivity |].
      exists [], []. rewrite app_nil_r. auto.
Qed.

(** Whether the body of [try] raises does not depend on the world it runs in. *)
Lemma try_body_result (l : Loop) (env : CycleEnv) (w : World) :
  fst (try_body l env w) = try_result l env.
Proof.
  unfold try_result.
  destruct (try_body_spec l env) as [[e He] | Hok].
  - rewrite !He. reflexivity.
  - rewrite (proj1 (Hok w)), (proj1 (Hok _)). reflexivity.
Qed.

(** C5, as the code has it: when the body of [try] returns, the posts it
    added are those of the report check followed by those of the regular
    check; the report check posts exactly once when its trigger fired,
    whatever the report says, and nothing otherwise; the regular check posts
    nothing when its trigger fired and the next-hour status is good, exactly
    once when its trigger fired and the status is not good, and nothing when
    its trigger did not fire. *)
Theorem notification_policy (l : Loop) (env : CycleEnv) (w w' : World) :
  try_body l env w = (OK tt, w') ->
  exists rep reg,
    outbox w' = (outbox w ++ rep ++ reg)%list
    /\ (if report_is_triggered l (now_report env)
        then List.length rep = 1%nat else rep = [])
    /\ (if regular_is_triggered l (now_regular env)
        then (if is_good (weather w') then reg = [] else List.length reg = 1%nat)
        else reg = []).
Proof.
  intro H.
  destruct (try_body_spec l env) as [[e He] | Hok].
  - specialize (He w). rewrite H in He. discriminate He.
  - destruct (Hok w) as [_ Hposts]. rewrite H in Hposts. exact Hposts.
Qed.

(** ** The backoff state machine *)

Lemma cycle_success (l : Loop) (env : CycleEnv) (s : MainState) :
  60 <= sleep s ->
  try_result l env = OK tt ->
  cycle l env s =
  Sleeping {| has_broken := false; sleep := 60;
              world := snd (try_body l env (world s)) |}.
Proof.
  intros Hs Hok. unfold cycle.
  destruct (Z.ltb_spec (sleep s) 60) as [Hlt | _]; [lia |].
  pose proof (try_body_result l env (world s)) as Hr. rewrite Hok in Hr.
  destruct (try_body l env (world s)) as [[u | e] w1]; simpl in *;
    [reflexivity | discriminate Hr].
Qed.

Lemma cycle_failure (l : Loop) (env : CycleEnv) (s : MainState) :
  60 <= sleep s ->
  failing_pass l env ->
  exists w,
    cycle l env s =
    Sleeping {| has_broken := true;
                sleep := if has_broken s then 3600 else 60 * 15;
                world := w |}.
Proof.
  intros Hs [[e He] Hpost]. unfold cycle.
  destruct (Z.ltb_spec (sleep s) 60) as [Hlt | _]; [lia |].
  pose proof (try_body_result l env (world s)) as Hr. rewrite He in Hr.
  destruct (try_body l env (world s)) as [[u | e'] w1]; simpl in *;
    [discriminate Hr |].
  unfold post. rewrite Hpost.
  destruct (has_broken s) eqn:Hb; simpl; eauto.
Qed.

(** Once failing, every further failing pass sleeps an hour. *)
Lemma failing_streak (l : Loop) (envs : list CycleEnv) :
  Forall (failing_pass l) envs ->
  forall s,
    has_broken s = true -> 60 <= sleep s ->
    exists s',
      main_loop l envs s = Sleeping s'
      /\ has_broken s' = true
      /\ (envs = [] -> s' = s)
      /\ (envs <> [] -> sleep s' = 3600).
Proof.
  induction 1 as [| env rest Henv Hrest IH]; intros s Hb Hs; simpl.
  - exists s. repeat split; auto. congruence.
  - destruct (cycle_failure l env s Hs Henv) as [w Hc].
    rewrite Hc, Hb.
    destruct (IH {| has_broken := true; sleep := 3600; world := w |})
      as [s' [Hrun [Hb' [Hnil Hcons]]]]; [reflexivity | simpl; lia |].
    exists s'. repeat split; auto; [discriminate |].
    intros _. destruct rest as [| env' rest'].
    + rewrite (Hnil eq_refl). reflexivity.
    + apply Hcons. discriminate.
Qed.

(** Every pass that reaches [time.sleep] leaves one of the three states,
    so the assertion at the top of the loop never fails. *)
Lemma cycle_backoff_state (l : Loop) (env : CycleEnv) (s s' : MainState) :
  backoff_state s -> cycle l env s = Sleeping s' -> backoff_state s'.
Proof.
  unfold backoff_state, cycle. intros Hs H.
  destruct (Z.ltb_spec (sleep s) 60) as [Hlt | _]; [discriminate H |].
  destruct (try_body l env (world s)) as [[u | e] w1].
  - inversion H; subst; simpl. auto.
  - destruct (has_broken s) eqn:Hb; simpl in H;
      destruct (post (post_failure env) _ w1) as [[u | e'] w2];
      inversion H; subst; simpl; auto.
Qed.

Lemma main_loop_backoff_state (l : Loop) (envs : list CycleEnv) :
  forall s s',
    backoff_state s -> main_loop l envs s = Sleeping s' -> backoff_state s'.
Proof.
  induction envs as [| env rest IH]; intros s s' Hs H; simpl in H.
  - inversion H; subst. exact Hs.
  - destruct (cycle l env s) as [s1 | e s1] eqn:Hc; [| discriminate H].
    apply (IH s1 s'); [| exact H].
    apply (cycle_backoff_state l env s s1 Hs Hc).
Qed.

(** C1, as the code has it: a failing pass is one whose [try] block
    raises and whose failure notification is delivered.  From the
    non-failing state with a sleep of 60 seconds, a first failing pass
    leaves the state failing with a sleep of 15 minutes; two or more
    consecutive failing passes, however many, leave it failing with a sleep
    of 60 minutes; and after any such streak one pass whose [try] block
    returns leaves the state not failing with a sleep of 60 seconds. *)
Theorem backoff_state_machine (l : Loop) (s : MainState) (envs : list CycleEnv) :
  has_broken s = false ->
  sleep s = 60 ->
  Forall (failing_pass l) envs ->
  exists s',
    main_loop l envs s = Sleeping s'
    /\ (List.length envs = 1%nat -> has_broken s' = true /\ sleep s' = 15 * 60)
    /\ ((2 <= List.length envs)%nat -> has_broken s' = true /\ sleep s' = 60 * 60)
    /\ forall env,
         try_result l env = OK tt ->
         exists w,
           cycle l env s' =
           Sleeping {| has_broken := false; sleep := 60; world := w |}.
Proof.
  intros Hb Hs Hall.
  destruct Hall as [| env rest Henv Hrest].
  - exists s. simpl. split; [reflexivity |].
    split; [discriminate |]. split; [lia |].
    intros env Hok. eexists. apply cycle_success; [lia | exact Hok].
  - simpl.
    destruct (cycle_failure l env s (ltac:(lia)) Henv) as [w Hc].
    rewrite Hc, Hb.
    destruct (failing_streak l rest Hrest
                {| has_broken := true; sleep := 60 * 15; world := w |})
      as [s' [Hrun [Hb' [Hnil Hcons]]]]; [reflexivity | simpl; lia |].
    exists s'. split; [exact Hrun |].
    assert (Hsleep : 60 <= sleep s').
    { destruct rest as [| env' rest'].
      - rewrite (Hnil eq_refl). simpl. lia.
      - rewrite Hcons by discriminate. lia. }
    split; [| split].
    + intro Hlen. destruct rest; [| discriminate Hlen].
      rewrite (Hnil eq_refl). simpl. auto.
    + intro Hlen. destruct rest as [| env' rest']; [simpl in Hlen; lia |].
      split; [exact Hb' |]. apply Hcons. discriminate.
    + intros env0 Hok. eexists. apply cycle_success; [exact Hsleep | exact Hok].
Qed.

(** ** Construction of the schedule *)

Lemma default_loop_init :
  Loop_init default_next_hour_checks default_report_checks = OK default_loop.
Proof. vm_compute. reflexivity. Qed.

(** What the two assertions accept, once a stamp has split and parsed. *)
Lemma parse_stamp_accepts (stamp a b : string) (hh mm : Z) :
  split_on ":"%char stamp = [a; b] ->
  py_int_of_string a = OK hh ->
  py_int_of_string b = OK mm ->
  (parse_stamp stamp = OK (hh, mm) <-> (0 <= hh <= 23 /\ 0 <= mm <= 60))
  /\ (parse_stamp stamp = Raise AssertionError
      <-> ~ (0 <= hh <= 23 /\ 0 <= mm <= 60)).
Proof.
  intros Hsplit Ha Hb. unfold parse_stamp. rewrite Hsplit, Ha, Hb. simpl.
  unfold py_assert.
  destruct (Z.leb_spec 0 hh), (Z.leb_spec hh 23), (Z.leb_spec 0 mm),
    (Z.leb_spec mm 60); simpl;
    (split; split; intro Hgoal; try discriminate Hgoal; try reflexivity;
     try lia; exfalso; apply Hgoal; lia).
Qed.

(** A minute of 60 never equals the minute of a wall clock. *)
Lemma minute_60_never_fires (hh hour minute : Z) :
  0 <= minute <= 59 -> is_triggered [(hh, 60)] (hour, minute) = false.
Proof.
  intro Hm. unfold is_triggered. cbn [fst snd].
  replace (60 =? minute) with false by (symmetry; apply Z.eqb_neq; lia).
  rewrite andb_false_r. reflexivity.
Qed.

(** C6, at the input where code and claim part: the entry 8:60 is
    accepted at construction and stored as (8, 60), while 8:61 and 24:00
    raise [AssertionError]. *)
Theorem loop_accepts_minute_60 :
  Loop_init ["8:60"] [] =
  OK {| next_hour_checks_at := [(8, 60)]; report_checks_at := [] |}
  /\ Loop_init ["8:61"] [] = Raise AssertionError
  /\ Loop_init ["24:00"] [] = Raise AssertionError
  /\ Loop_init ["8:59"] [] =
     OK {| next_hour_checks_at := [(8, 59)]; report_checks_at := [] |}.
Proof. vm_compute. repeat split; reflexivity. Qed.

(** ** The properties at sample inputs *)

Example hot_hour_snapshot : simplify_hour hot_hour = OK hot_snapshot.
Proof. vm_compute. reflexivity. Qed.

Example hot_snapshot_status : Status_init hot_snapshot = OK hot_status.
Proof. vm_compute. reflexivity. Qed.

Example hot_status_messages :
  get_most_important_warning hot_status = "PROB_RAIN"
  /\ Status_bool hot_status = false.
Proof. vm_compute. split; reflexivity. Qed.

(** The two float literals are the binary64 numbers nearest to 273.15 and
    0.2: 53-bit mantissas, within half a unit in the last place. *)
Example float_literals_nearest :
  (2 ^ 52 <= 4805305618032230 < 2 ^ 53)
  /\ Qle (Qabs (Q_of_dyadic 4805305618032230 (-44) - (27315 # 100))) (1 # 2 ^ 45)
  /\ (2 ^ 52 <= 7205759403792794 < 2 ^ 53)
  /\ Qle (Qabs (Q_of_dyadic 7205759403792794 (-55) - (2 # 10))) (1 # 2 ^ 56).
Proof.
  repeat split; try (vm_compute; congruence).
Qed.

(** 300.95 K is 27.8 C and stays 27; 270.65 K is -2.5 C and becomes -2. *)
Example truncation_is_not_rounding :
  (t <- py_sub_float (VFloat (S754_finite false 5294368390066995 (-44))) lit_273_15 ;;
   py_int t) = OK 27
  /\ (t <- py_sub_float (VFloat (S754_finite false 4761325152921190 (-44))) lit_273_15 ;;
      py_int t) = OK (-2).
Proof. vm_compute. split; reflexivity. Qed.

Example mild_hours_gathered :
  gather_hours utc_hour 13 24 (firstn 24 mild_reply) = OK mild_hours
  /\ map fst mild_hours = [13; 14; 15; 16; 17; 18; 19; 20; 21; 22; 23].
Proof. vm_compute. split; reflexivity. Qed.

(** When the failure post itself raises, nothing catches it: the pass does
    not reach [time.sleep]. *)
Lemma cycle_failure_post_raises (l : Loop) (env : CycleEnv) (s : MainState)
    (e e' : exn) :
  60 <= sleep s ->
  try_result l env = Raise e ->
  post_failure env = Raise e' ->
  cycle l env s =
  Crashed e' {| has_broken := true || has_broken s; sleep := sleep s;
                world := snd (try_body l env (world s)) |}.
Proof.
  intros Hs He Hpost. unfold cycle.
  destruct (Z.ltb_spec (sleep s) 60) as [Hlt | _]; [lia |].
  pose proof (try_body_result l env (world s)) as Hr. rewrite He in Hr.
  destruct (try_body l env (world s)) as [[u | e0] w1]; simpl in *;
    [discriminate Hr |].
  unfold post. rewrite Hpost.
  destruct (has_broken s); reflexivity.
Qed.

(** The first exception of a pass, with the notification service down as
    well: the handler's post raises, the exception leaves [main] with
    [has_broken] set and [sleep] still 60, and no pass follows. *)
Lemma first_failure_offline_ends_the_loop :
  has_broken initial_state = false
  /\ sleep initial_state = 60
  /\ try_result default_loop env_offline = Raise TransportError
  /\ cycle default_loop env_offline initial_state =
     Crashed TransportError
       {| has_broken := true; sleep := 60; world := world initial_state |}
  /\ main_loop default_loop [env_offline; env_1300] initial_state =
     Crashed TransportError
       {| has_broken := true; sleep := 60; world := world initial_state |}.
Proof. vm_compute. repeat split; reflexivity. Qed.

(** Three failing passes in a row from the initial state. *)
Lemma backoff_state_machine_witness :
  Forall (failing_pass default_loop) [env_down; env_down; env_down]
  /\ exists s',
       main_loop default_loop [env_down; env_down; env_down] initial_state
       = Sleeping s'
       /\ (List.length [env_down; env_down; env_down] = 1%nat ->
           has_broken s' = true /\ sleep s' = 15 * 60)
       /\ ((2 <= List.length [env_down; env_down; env_down])%nat ->
           has_broken s' = true /\ sleep s' = 60 * 60)
       /\ forall env,
            try_result default_loop env = OK tt ->
            exists w,
              cycle default_loop env s' =
              Sleeping {| has_broken := false; sleep := 60; world := w |}.
Proof.
  assert (Hpass : failing_pass default_loop env_down).
  { split; [exists TransportError; vm_compute; reflexivity | reflexivity]. }
  assert (Hall : Forall (failing_pass default_loop) [env_down; env_down; env_down]).
  { repeat (apply Forall_cons; [exact Hpass |]). apply Forall_nil. }
  split; [exact Hall |].
  exact (backoff_state_machine default_loop initial_state
           [env_down; env_down; env_down] eq_refl eq_refl Hall).
Defined.

Lemma warnings_iff_predicate_witness :
  (exists st, Status_init hot_snapshot = OK st)
  /\ (forall c test, In (c, test) conditions ->
        (dict_mem c (warnings hot_status) = true
         <-> exists v, dict_get hot_snapshot c = Some v /\ test v = OK true))
  /\ (forall c, dict_mem c (warnings hot_status) = true ->
                dict_mem c (values hot_status) = true)
  /\ (dict_get hot_snapshot "COLD" = Some (VInt 15) ->
      dict_mem "COLD" (warnings hot_status) = false)
  /\ (dict_get hot_snapshot "COLD" = Some (VInt 14) ->
      dict_mem "COLD" (warnings hot_status) = true).
Proof.
  split.
  - apply (proj1 (warnings_iff_predicate hot_snapshot)).
    intros c v Hc Hget. simpl in Hc.
    destruct Hc as [<- | [<- | [<- | [<- | []]]]];
      vm_compute in Hget; injection Hget as <-; reflexivity.
  - apply (proj2 (warnings_iff_predicate hot_snapshot) hot_status).
    vm_compute. reflexivity.
Defined.

Lemma notification_policy_witness :
  try_body default_loop env_1300 (world initial_state)
  = (OK tt, snd (try_body default_loop env_1300 (world initial_state)))
  /\ exists rep reg,
       outbox (snd (try_body default_loop env_1300 (world initial_state)))
       = (outbox (world initial_state) ++ rep ++ reg)%list
       /\ (if report_is_triggered default_loop (now_report env_1300)
           then List.length rep = 1%nat else rep = [])
       /\ (if regular_is_triggered default_loop (now_regular env_1300)
           then (if is_good
                      (weather (snd (try_body default_loop env_1300
                                       (world initial_state))))
                 then reg = [] else List.length reg = 1%nat)
           else reg = []).
Proof.
  assert (H : try_body default_loop env_1300 (world initial_state)
              = (OK tt, snd (try_body default_loop env_1300 (world initial_state))))
    by (vm_compute; reflexivity).
  split; [exact H |].
  exact (notification_policy default_loop env_1300 _ _ H).
Defined.

(** At 13:00 the default schedule fires both checks.  With mild weather
    the regular trigger has fired and the next-hour status is good, and the
    pass still delivers one notification: the report's. *)
Lemma both_triggers_good_weather_posts_once :
  regular_is_triggered default_loop (now_regular env_1300) = true
  /\ report_is_triggered default_loop (now_report env_1300) = true
  /\ fst (try_body default_loop env_1300 (world initial_state)) = OK tt
  /\ is_good (weather (snd (try_body default_loop env_1300 (world initial_state))))
     = true
  /\ outbox (snd (try_body default_loop env_1300 (world initial_state)))
     = [N_update (green_circle ++ ": ") good_weather_message].
Proof. vm_compute. repeat split; reflexivity. Qed.

Lemma simplify_hour_truncates_witness :
  simplify_hour hot_hour = OK hot_snapshot
  /\ exists t c w scaled p,
       py_sub_float (py_get hot_hour "temp") lit_273_15 = OK t
       /\ py_int t = OK c
       /\ (exists q, pyval_value t = Some q /\ truncates q c)
       /\ dict_get hot_snapshot "COLD" = Some (VInt c)
       /\ dict_get hot_snapshot "HOT" = Some (VInt c)
       /\ py_int (py_get hot_hour "wind_speed") = OK w
       /\ (exists q, pyval_value (py_get hot_hour "wind_speed") = Some q
                     /\ truncates q w)
       /\ dict_get hot_snapshot "WIND" = Some (VInt w)
       /\ py_mul_int (py_get hot_hour "pop") 100 = OK scaled
       /\ py_int scaled = OK p
       /\ (exists q, pyval_value scaled = Some q /\ truncates q p)
       /\ dict_get hot_snapshot "PROB_RAIN" = Some (VInt p).
Proof.
  assert (H : simplify_hour hot_hour = OK hot_snapshot)
    by (vm_compute; reflexivity).
  exact (conj H (simplify_hour_truncates hot_hour hot_snapshot H)).
Defined.

Lemma most_important_warning_is_first_rule_witness :
  Status_init hot_snapshot = OK hot_status
  /\ dict_keys conditions = ["PROB_RAIN"; "COLD"; "UV"; "HOT"]
  /\ get_most_important_warning hot_status =
     match find (fun c => dict_mem c (warnings hot_status)) (dict_keys conditions) with
     | Some c => c
     | None => ""
     end
  /\ (warnings hot_status = [] -> get_most_important_warning hot_status = "").
Proof.
  assert (H : Status_init hot_snapshot = OK hot_status)
    by (vm_compute; reflexivity).
  exact (conj H (most_important_warning_is_first_rule hot_snapshot hot_status H)).
Defined.

Lemma report_good_iff_no_trigger_witness :
  0 <= 24 <= 24
  /\ gather_hours utc_hour 13 24 (firstn 24 mild_reply) = OK mild_hours
  /\ ((forall c, In c cond_names -> ~ triggers mild_hours c) ->
      check_report utc_hour 13 (OK mild_reply) 24 (world initial_state) =
      (OK tt,
       {| weather := {| is_good := true; warning := "";
                        message := "Good weather! " ++ utf8 [240; 159; 164; 151]%nat |};
          outbox := outbox (world initial_state) |}))
  /\ ((exists c, In c cond_names /\ triggers mild_hours c) ->
      check_report utc_hour 13 (OK mild_reply) 24 (world initial_state) =
      (OK tt,
       {| weather :=
            {| is_good := false; warning := "prepare for the day";
               message := join newline (flat_map (report_line mild_hours) cond_names) |};
          outbox := outbox (world initial_state) |})).
Proof.
  assert (Hb : 0 <= 24 <= 24) by lia.
  assert (Hg : gather_hours utc_hour 13 24 (firstn 24 mild_reply) = OK mild_hours)
    by (vm_compute; reflexivity).
  split; [exact Hb |].
  split; [exact Hg |].
  exact (report_good_iff_no_trigger utc_hour 13 mild_reply 24 mild_hours
           (world initial_state) Hb Hg).
Defined.

Lemma wind_and_raindrops_never_warn_witness :
  Status_init hot_snapshot = OK hot_status
  /\ incl (dict_keys (values hot_status)) cond_names
  /\ incl (dict_keys (bools hot_status)) cond_names
  /\ incl (dict_keys (warnings hot_status)) cond_names.
Proof.
  assert (H : Status_init hot_snapshot = OK hot_status)
    by (vm_compute; reflexivity).
  exact (conj H (proj1 wind_and_raindrops_never_warn hot_snapshot hot_status H)).
Defined.

Example mild_report_is_good :
  check_report utc_hour 13 (OK mild_reply) 24 (world initial_state) =
  (OK tt,
   {| weather := {| is_good := true; warning := "";
                    message := good_weather_message |};
      outbox := [] |}).
Proof. vm_compute. reflexivity. Qed.

(** The hot hour alone, at 08:00: the regular check posts once. *)
Example hot_hour_regular_check :
  regular_branch
    {| now_report := (8, 0); now_regular := (8, 0); report_now_hour := 8;
       local_hour := utc_hour;
       report_fetch := OK [hot_hour]; next_hour_fetch := OK [hot_hour];
       post_report := OK tt; post_regular := OK tt; post_failure := OK tt;
       fail_time := "08:00" |} (world initial_state) =
  (OK tt,
   {| weather :=
        {| is_good := false; warning := "next hour: PROB_RAIN";
           message :=
             utf8 [240; 159; 140; 167]%nat ++ ": 60" ++ newline ++
             utf8 [238; 129; 138]%nat ++ ": 5" ++ newline ++
             utf8 [240; 159; 165; 181]%nat ++ ": 27" |};
      outbox :=
        [N_update (red_circle ++ ": next hour: PROB_RAIN")
           (utf8 [240; 159; 140; 167]%nat ++ ": 60" ++ newline ++
            utf8 [238; 129; 138]%nat ++ ": 5" ++ newline ++
            utf8 [240; 159; 165; 181]%nat ++ ": 27")] |}).
Proof. vm_compute. reflexivity. Qed.

(** * Further properties of the code *)

(** ** Loop: construction and printing *)

Lemma parse_stamp_bounds (stamp : string) (hh mm : Z) :
  parse_stamp stamp = OK (hh, mm) -> 0 <= hh <= 23 /\ 0 <= mm <= 60.
Proof.
  unfold parse_stamp.
  destruct (split_on ":"%char stamp) as [| a [| b [| c rest]]]; try discriminate.
  intro H.
  apply bind_OK_inv in H. destruct H as [h [_ H]].
  apply bind_OK_inv in H. destruct H as [m [_ H]].
  unfold py_assert in H.
  destruct (Z.leb_spec 0 h), (Z.leb_spec h 23); simpl in H; try discriminate H.
  destruct (Z.leb_spec 0 m), (Z.leb_spec m 60); simpl in H; try discriminate H.
  inversion H; subst. lia.
Qed.

Lemma parse_checks_inv (stamps : list string) (rv : list (Z * Z)) :
  parse_checks stamps = OK rv ->
  Forall2 (fun stamp hm => parse_stamp stamp = OK hm) stamps rv.
Proof.
  revert rv. induction stamps as [| stamp rest IH]; intros rv H; simpl in H.
  - inversion H. constructor.
  - apply bind_OK_inv in H. destruct H as [hm [Hhm H]].
    apply bind_OK_inv in H. destruct H as [tl [Htl H]].
    inversion H; subst. constructor; auto.
Qed.

Lemma parse_checks_of_Forall2 (stamps : list string) (rv : list (Z * Z)) :
  Forall2 (fun stamp hm => parse_stamp stamp = OK hm) stamps rv ->
  parse_checks stamps = OK rv.
Proof.
  induction 1 as [| stamp hm rest tl Hhm _ IH]; simpl.
  - reflexivity.
  - rewrite Hhm, IH. reflexivity.
Qed.

(** X1: a [Loop] that is constructed holds one entry per stamp, in the
    order given, each the pair its stamp parses to, with the hour in
    [0, 23] and the minute in [0, 60]. *)
Theorem Loop_init_entries (next_hour report : list string) (l : Loop) :
  Loop_init next_hour report = OK l ->
  Forall2 (fun stamp hm => parse_stamp stamp = OK hm)
          next_hour (next_hour_checks_at l)
  /\ Forall2 (fun stamp hm => parse_stamp stamp = OK hm)
             report (report_checks_at l)
  /\ Forall (fun hm => 0 <= fst hm <= 23 /\ 0 <= snd hm <= 60)
            (next_hour_checks_at l ++ report_checks_at l)%list.
Proof.
  unfold Loop_init. intro H.
  apply bind_OK_inv in H. destruct H as [a [Ha H]].
  apply bind_OK_inv in H. destruct H as [b [Hb H]].
  inversion H; subst; simpl.
  apply parse_checks_inv in Ha. apply parse_checks_inv in Hb.
  split; [exact Ha |]. split; [exact Hb |].
  apply Forall_app. split.
  - clear Hb. induction Ha as [| stamp [hh mm] ? ? Hhm _ IH]; constructor; auto.
    simpl. eapply parse_stamp_bounds; eauto.
  - clear Ha. induction Hb as [| stamp [hh mm] ? ? Hhm _ IH]; constructor; auto.
    simpl. eapply parse_stamp_bounds; eauto.
Qed.

Lemma Loop_init_entries_witness :
  Loop_init default_next_hour_checks default_report_checks = OK default_loop
  /\ Forall2 (fun stamp hm => parse_stamp stamp = OK hm)
             default_next_hour_checks (next_hour_checks_at default_loop)
  /\ Forall2 (fun stamp hm => parse_stamp stamp = OK hm)
             default_report_checks (report_checks_at default_loop)
  /\ Forall (fun hm => 0 <= fst hm <= 23 /\ 0 <= snd hm <= 60)
            (next_hour_checks_at default_loop ++ report_checks_at default_loop)%list.
Proof.
  assert (H : Loop_init default_next_hour_checks default_report_checks
              = OK default_loop) by (vm_compute; reflexivity).
  exact (conj H (Loop_init_entries _ _ _ H)).
Defined.

Lemma parse_checks_fails_at (pre rest : list string) (bad : string) (e : exn) :
  Forall stamp_ok pre ->
  parse_stamp bad = Raise e ->
  parse_checks (pre ++ bad :: rest) = Raise e.
Proof.
  intros Hpre Hbad. induction Hpre as [| stamp pre [hm Hhm] _ IH]; simpl.
  - rewrite Hbad. reflexivity.
  - rewrite Hhm. simpl. rewrite IH. reflexivity.
Qed.

(** X2: construction stops at the first stamp that does not parse and
    raises that stamp's exception, whatever follows it; the next-hour list
    is read before the report list. *)
Theorem Loop_init_fails_at_first_bad_stamp (pre rest : list string)
    (bad : string) (e : exn) :
  Forall stamp_ok pre ->
  parse_stamp bad = Raise e ->
  (forall report, Loop_init (pre ++ bad :: rest) report = Raise e)
  /\ (forall next_hour,
        Forall stamp_ok next_hour ->
        Loop_init next_hour (pre ++ bad :: rest) = Raise e).
Proof.
  intros Hpre Hbad. unfold Loop_init. split.
  - intro report. rewrite (parse_checks_fails_at pre rest bad e Hpre Hbad).
    reflexivity.
  - intros next_hour Hok.
    assert (Hn : exists a, parse_checks next_hour = OK a).
    { induction Hok as [| stamp tl [hm Hhm] _ [a IH]]; simpl.
      - eauto.
      - rewrite Hhm, IH. simpl. eauto. }
    destruct Hn as [a ->]. simpl.
    rewrite (parse_checks_fails_at pre rest bad e Hpre Hbad). reflexivity.
Qed.

Lemma Loop_init_fails_at_first_bad_stamp_witness :
  Forall stamp_ok ["8:00"]
  /\ parse_stamp "25:00" = Raise AssertionError
  /\ (forall report,
        Loop_init (["8:00"] ++ "25:00" :: ["x"]) report = Raise AssertionError)
  /\ (forall next_hour,
        Forall stamp_ok next_hour ->
        Loop_init next_hour (["8:00"] ++ "25:00" :: ["x"]) = Raise AssertionError).
Proof.
  assert (Hpre : Forall stamp_ok ["8:00"]).
  { constructor; [exists (8, 0); vm_compute; reflexivity | constructor]. }
  assert (Hbad : parse_stamp "25:00" = Raise AssertionError)
    by (vm_compute; reflexivity).
  exact (conj Hpre (conj Hbad
           (Loop_init_fails_at_first_bad_stamp ["8:00"] ["x"] "25:00"
              AssertionError Hpre Hbad))).
Defined.

Lemma split_on_length (c : ascii) (s : string) :
  List.length (split_on c s) = S (count_char c s).
Proof.
  induction s as [| a rest IH]; simpl.
  - reflexivity.
  - destruct (Ascii.eqb a c); simpl.
    + rewrite IH. reflexivity.
    + destruct (split_on c rest) as [| p ps]; [discriminate IH | exact IH].
Qed.

Lemma py_int_of_string_raises (s : string) (e : exn) :
  py_int_of_string s = Raise e -> e = ValueError.
Proof.
  unfold py_int_of_string.
  destruct (parse_digits _ 0 false); intro H; [discriminate H | congruence].
Qed.

(** X3: a stamp that does not hold exactly one colon raises [ValueError],
    and no stamp raises anything but [ValueError] (shape or digits) or
    [AssertionError] (range). *)
Theorem parse_stamp_errors (stamp : string) :
  (count_char ":"%char stamp <> 1%nat -> parse_stamp stamp = Raise ValueError)
  /\ (forall e, parse_stamp stamp = Raise e -> e = ValueError \/ e = AssertionError).
Proof.
  unfold parse_stamp.
  pose proof (split_on_length ":"%char stamp) as Hlen.
  destruct (split_on ":"%char stamp) as [| a [| b [| c rest]]]; simpl in Hlen.
  - discriminate Hlen.
  - split; [reflexivity | intros e H; left; congruence].
  - split; [intro Hc; exfalso; apply Hc; congruence |].
    intros e H.
    destruct (py_int_of_string a) as [hh | e1] eqn:Ha; simpl in H;
      [| left; apply (py_int_of_string_raises a); congruence].
    destruct (py_int_of_string b) as [mm | e2] eqn:Hb; simpl in H;
      [| left; apply (py_int_of_string_raises b); congruence].
    unfold py_assert in H.
    destruct ((0 <=? hh) && (hh <=? 23)); simpl in H; [| right; congruence].
    destruct ((0 <=? mm) && (mm <=? 60)); simpl in H;
      [discriminate H | right; congruence].
  - split; [reflexivity | intros e H; left; congruence].
Qed.

Lemma stamp_round_trips_all :
  forallb (fun hh => forallb (fun mm => stamp_round_trips (hh, mm)) minute_range)
          hour_range = true.
Proof. vm_compute. reflexivity. Qed.

Lemma in_range_of_nat (z : Z) (n : nat) :
  0 <= z < Z.of_nat n -> In z (map Z.of_nat (seq 0 n)).
Proof.
  intro Hz. apply in_map_iff. exists (Z.to_nat z). split; [lia |].
  apply in_seq. lia.
Qed.

Lemma check_stamp_round_trip (hh mm : Z) :
  0 <= hh <= 23 -> 0 <= mm <= 60 ->
  parse_stamp (check_stamp (hh, mm)) = OK (hh, mm).
Proof.
  intros Hh Hm.
  pose proof stamp_round_trips_all as Hall.
  rewrite forallb_forall in Hall.
  specialize (Hall hh (in_range_of_nat hh 24 ltac:(lia))).
  rewrite forallb_forall in Hall.
  specialize (Hall mm (in_range_of_nat mm 61 ltac:(lia))).
  unfold stamp_round_trips in Hall.
  destruct (parse_stamp (check_stamp (hh, mm))) as [[h' m'] | e];
    [| discriminate Hall].
  simpl in Hall. apply andb_true_iff in Hall. destruct Hall as [E1 E2].
  apply Z.eqb_eq in E1. apply Z.eqb_eq in E2. congruence.
Qed.

Lemma parse_checks_round_trip (checks : list (Z * Z)) :
  Forall (fun hm => 0 <= fst hm <= 23 /\ 0 <= snd hm <= 60) checks ->
  parse_checks (map check_stamp checks) = OK checks.
Proof.
  induction 1 as [| [hh mm] rest [Hh Hm] _ IH]; simpl.
  - reflexivity.
  - simpl in Hh, Hm. rewrite (check_stamp_round_trip hh mm Hh Hm). simpl.
    rewrite IH. reflexivity.
Qed.

(** X4: the stamps the two [..._checks_string] methods print for a
    constructed [Loop] construct the same [Loop] again. *)
Theorem Loop_stamps_round_trip (next_hour report : list string) (l : Loop) :
  Loop_init next_hour report = OK l ->
  Loop_init (map check_stamp (next_hour_checks_at l))
            (map check_stamp (report_checks_at l)) = OK l
  /\ next_hour_checks_string l = join ", " (map check_stamp (next_hour_checks_at l))
  /\ report_checks_string l = join ", " (map check_stamp (report_checks_at l)).
Proof.
  intro H.
  destruct (Loop_init_entries _ _ _ H) as [_ [_ Hb]].
  apply Forall_app in Hb. destruct Hb as [Hn Hr].
  split; [| split; reflexivity].
  unfold Loop_init.
  rewrite (parse_checks_round_trip _ Hn), (parse_checks_round_trip _ Hr).
  destruct l; reflexivity.
Qed.

Lemma Loop_stamps_round_trip_witness :
  Loop_init ["8:0"; " 13:5_9"; "+7:60"] ["23:00"] =
  OK {| next_hour_checks_at := [(8, 0); (13, 59); (7, 60)];
        report_checks_at := [(23, 0)] |}
  /\ Loop_init ["08:00"; "13:59"; "07:60"] ["23:00"] =
     OK {| next_hour_checks_at := [(8, 0); (13, 59); (7, 60)];
           report_checks_at := [(23, 0)] |}.
Proof.
  assert (H : Loop_init ["8:0"; " 13:5_9"; "+7:60"] ["23:00"] =
              OK {| next_hour_checks_at := [(8, 0); (13, 59); (7, 60)];
                    report_checks_at := [(23, 0)] |})
    by (vm_compute; reflexivity).
  exact (conj H (proj1 (Loop_stamps_round_trip _ _ _ H))).
Defined.

(** ** simplify_hour: the rain volume and the fields it needs *)

Lemma py_gt_0_2_truthy (r : pyval) :
  py_gt r (num_of_float lit_0_2) = OK true -> py_truthy r = true.
Proof.
  destruct r as [| z | f | d]; simpl; try discriminate.
  - destruct z; [vm_compute; discriminate | reflexivity | reflexivity].
  - destruct f as [s | s | | s m e]; try reflexivity.
    vm_compute. discriminate.
Qed.

Lemma py_gt_not_None (c : num) (b : bool) : py_gt VNone c <> OK b.
Proof. simpl. discriminate. Qed.

Lemma dict_get_truthy (d : dict pyval) (k : string) (v : pyval) :
  dict_get d k = Some v -> py_truthy (VDict d) = true.
Proof. destruct d; [discriminate | reflexivity]. Qed.

(** X5: the snapshot holds UV, COLD, HOT, WIND and PROB_RAIN in this
    order; it holds RAINDROPS, after them, exactly when the record's
    [rain] is a dictionary whose ["1h"] entry is greater than 0.2, and then
    with that entry as its value. *)
Theorem simplify_hour_raindrops (h sd : dict pyval) :
  simplify_hour h = OK sd ->
  (dict_mem "RAINDROPS" sd = true <-> exists r, heavy_rain h r)
  /\ (forall r, dict_get sd "RAINDROPS" = Some r -> heavy_rain h r)
  /\ (dict_keys sd = ["UV"; "COLD"; "HOT"; "WIND"; "PROB_RAIN"]
      \/ dict_keys sd = ["UV"; "COLD"; "HOT"; "WIND"; "PROB_RAIN"; "RAINDROPS"]).
Proof.
  unfold simplify_hour, heavy_rain. intro H.
  apply bind_OK_inv in H. destruct H as [t [_ H]].
  apply bind_OK_inv in H. destruct H as [c [_ H]].
  apply bind_OK_inv in H. destruct H as [c' [_ H]].
  apply bind_OK_inv in H. destruct H as [w [_ H]].
  apply bind_OK_inv in H. destruct H as [scaled [_ H]].
  apply bind_OK_inv in H. destruct H as [p [_ H]].
  simpl in H.
  assert (Hlight :
    forall d r, py_get h "rain" = VDict d -> dict_get d "1h" = Some r ->
                py_gt r (num_of_float lit_0_2) = OK true ->
                py_truthy (py_get h "rain") = true
                /\ py_attr_get (py_get h "rain") "1h" = OK r
                /\ py_truthy r = true).
  { intros d r Hrain Hget Hgt. rewrite Hrain. simpl.
    split; [eapply dict_get_truthy; eauto |].
    split; [unfold py_get; rewrite Hget; reflexivity |].
    now apply py_gt_0_2_truthy. }
  destruct (py_truthy (py_get h "rain")) eqn:Htruthy.
  - apply bind_OK_inv in H. destruct H as [r1 [Hr1 H]].
    destruct (py_get h "rain") as [| z | f | d] eqn:Hrain; try discriminate Hr1.
    simpl in Hr1. inversion Hr1; subst r1; clear Hr1.
    destruct (py_truthy (py_get d "1h")) eqn:Ht1.
    + apply bind_OK_inv in H. destruct H as [r2 [Hr2 H]].
      simpl in Hr2. inversion Hr2; subst r2; clear Hr2.
      apply bind_OK_inv in H. destruct H as [heavy [Hheavy H]].
      assert (Hsome : forall b, py_gt (py_get d "1h") (num_of_float lit_0_2) = OK b ->
                                dict_get d "1h" = Some (py_get d "1h")).
      { intros b Hb. unfold py_get in *.
        destruct (dict_get d "1h"); [reflexivity | discriminate Hb]. }
      destruct heavy.
      * apply bind_OK_inv in H. destruct H as [r3 [Hr3 H]].
        simpl in Hr3. inversion Hr3; subst r3; clear Hr3.
        inversion H; subst sd; clear H.
        split; [| split].
        -- split; [| reflexivity]. intros _.
           exists (py_get d "1h"), d. split; [reflexivity |].
           split; [eapply Hsome; eauto | exact Hheavy].
        -- intros r Hr. vm_compute in Hr. inversion Hr; subst r.
           exists d. split; [reflexivity |].
           split; [eapply Hsome; eauto | exact Hheavy].
        -- right. reflexivity.
      * inversion H; subst sd; clear H.
        split; [| split].
        -- split; [discriminate |].
           intros [r [d' [Hd' [Hget Hgt]]]]. inversion Hd'; subst d'.
           unfold py_get in Hheavy. rewrite Hget in Hheavy.
           assert (E : @OK bool false = OK true)
             by (rewrite <- Hheavy; exact Hgt).
           discriminate E.
        -- intros r Hr. discriminate Hr.
        -- left. reflexivity.
    + inversion H; subst sd; clear H.
      split; [| split].
      * split; [discriminate |].
        intros [r [d' [Hd' [Hget Hgt]]]]. inversion Hd'; subst d'.
        apply py_gt_0_2_truthy in Hgt.
        unfold py_get in Ht1. rewrite Hget in Ht1. congruence.
      * intros r Hr. discriminate Hr.
      * left. reflexivity.
  - inversion H; subst sd; clear H.
    split; [| split].
    + split; [discriminate |].
      intros [r [d [Hd [Hget Hgt]]]].
      destruct (Hlight d r Hd Hget Hgt) as [Ht _]. congruence.
    + intros r Hr. discriminate Hr.
    + left. reflexivity.
Qed.

Lemma simplify_hour_raindrops_witness :
  simplify_hour rainy_hour = OK rainy_snapshot
  /\ (dict_mem "RAINDROPS" rainy_snapshot = true <-> exists r, heavy_rain rainy_hour r)
  /\ (forall r, dict_get rainy_snapshot "RAINDROPS" = Some r -> heavy_rain rainy_hour r)
  /\ (dict_keys rainy_snapshot = ["UV"; "COLD"; "HOT"; "WIND"; "PROB_RAIN"]
      \/ dict_keys rainy_snapshot
         = ["UV"; "COLD"; "HOT"; "WIND"; "PROB_RAIN"; "RAINDROPS"]).
Proof.
  assert (H : simplify_hour rainy_hour = OK rainy_snapshot)
    by (vm_compute; reflexivity).
  exact (conj H (simplify_hour_raindrops rainy_hour rainy_snapshot H)).
Defined.



(** X7: a record without a number under [uvi] still normalizes, to a
    snapshot whose UV is that value, but no [Status] can be built from it:
    the UV rule raises [TypeError], and so does the next-hour check on such
    a record, leaving the weather and the posts as they were. *)
Theorem missing_uvi_raises (h sd : dict pyval) :
  simplify_hour h = OK sd ->
  is_number (py_get h "uvi") = false ->
  dict_get sd "UV" = Some (py_get h "uvi")
  /\ Status_init sd = Raise TypeError
  /\ forall rest w, check_next_hour (OK (h :: rest)) w = (Raise TypeError, w).
Proof.
  intros H Huv.
  assert (Hst : Status_init sd = Raise TypeError).
  { destruct (simplify_hour_inv h sd H)
      as [t [c [w [scaled [p [_ [_ [_ [_ [_ Hsd]]]]]]]]]].
    destruct (py_get h "uvi") eqn:Hu; try discriminate Huv;
      destruct Hsd as [-> | [r ->]]; reflexivity. }
  split; [| split; [exact Hst |]].
  - destruct (simplify_hour_inv h sd H)
      as [t [c [w [scaled [p [_ [_ [_ [_ [_ Hsd]]]]]]]]]].
    destruct Hsd as [-> | [r ->]]; reflexivity.
  - intros rest w. unfold check_next_hour, mbind, lift.
    rewrite H, Hst. reflexivity.
Qed.

Lemma missing_uvi_raises_witness :
  simplify_hour no_uvi_hour =
  OK [("UV", VNone); ("COLD", VInt 20); ("HOT", VInt 20); ("WIND", VInt 2);
      ("PROB_RAIN", VInt 10)]
  /\ is_number (py_get no_uvi_hour "uvi") = false
  /\ dict_get [("UV", VNone); ("COLD", VInt 20); ("HOT", VInt 20);
               ("WIND", VInt 2); ("PROB_RAIN", VInt 10)] "UV"
     = Some (py_get no_uvi_hour "uvi")
  /\ Status_init [("UV", VNone); ("COLD", VInt 20); ("HOT", VInt 20);
                  ("WIND", VInt 2); ("PROB_RAIN", VInt 10)] = Raise TypeError
  /\ forall rest w,
       check_next_hour (OK (no_uvi_hour :: rest)) w = (Raise TypeError, w).
Proof.
  assert (H : simplify_hour no_uvi_hour =
              OK [("UV", VNone); ("COLD", VInt 20); ("HOT", VInt 20);
                  ("WIND", VInt 2); ("PROB_RAIN", VInt 10)])
    by (vm_compute; reflexivity).
  assert (Hu : is_number (py_get no_uvi_hour "uvi") = false) by reflexivity.
  exact (conj H (conj Hu (missing_uvi_raises no_uvi_hour _ H Hu))).
Defined.

(** ** Status: how the three mappings agree *)

Lemma dict_get_not_key {V : Type} (d : dict V) (k : string) :
  ~ In k (dict_keys d) -> dict_get d k = None.
Proof.
  intro Hk. pose proof (dict_mem_In d k) as Hm. unfold dict_mem in Hm.
  destruct (dict_get d k); [exfalso; apply Hk, Hm; reflexivity | reflexivity].
Qed.

(** Lookup in a mapping built rule by rule, each rule giving no item or
    one item under its own name. *)
Lemma dict_get_flat_map_rules {W X : Type} (f : string * W -> list (string * X))
    (conds : dict W) (c : string) (x : X) :
  NoDup (dict_keys conds) ->
  (forall r, f r = [] \/ exists x0, f r = [(fst r, x0)]) ->
  (dict_get (flat_map f conds) c = Some x
   <-> exists r, In r conds /\ fst r = c /\ f r = [(c, x)]).
Proof.
  intros Hnd Hf.
  induction conds as [| r rest IH]; simpl.
  - split; [discriminate | intros [r [[] _]]].
  - inversion Hnd as [| ? ? Hnot Hnd']; subst.
    specialize (IH Hnd').
    destruct (Hf r) as [E | [x0 E]]; rewrite E; simpl.
    + rewrite IH. split.
      * intros [r' [Hin H]]. exists r'. auto.
      * intros [r' [[<- | Hin] [Hc Hr']]]; [congruence | exists r'; auto].
    + destruct (String.eqb_spec c (fst r)) as [-> | Hne].
      * split.
        -- intro H. exists r. split; [now left |]. split; congruence.
        -- intros [r' [[<- | Hin] [Hc Hr']]]; [congruence |].
           exfalso. apply Hnot. rewrite <- Hc. unfold dict_keys.
           now apply in_map.
      * rewrite IH. split.
        -- intros [r' [Hin H]]. exists r'. auto.
        -- intros [r' [[<- | Hin] [Hc Hr']]]; [congruence | exists r'; auto].
Qed.

Lemma warn_items_shape (d : dict pyval) (r : string * (pyval -> result bool)) :
  warn_items d r = [] \/ exists v, warn_items d r = [(fst r, v)].
Proof.
  unfold warn_items. destruct (dict_get d (fst r)) as [v |]; [| now left].
  destruct (snd r v) as [[|] | e]; [right; eauto | now left | now left].
Qed.

Lemma bool_items_shape (d : dict pyval) (r : string * (pyval -> result bool)) :
  bool_items d r = [] \/ exists b, bool_items d r = [(fst r, b)].
Proof.
  unfold bool_items. destruct (dict_get d (fst r)) as [v |]; [| now left].
  destruct (snd r v) as [b | e]; [right; eauto | now left].
Qed.

Lemma warn_item_iff (d : dict pyval) (r : string * (pyval -> result bool))
    (c : string) (v : pyval) :
  fst r = c ->
  (warn_items d r = [(c, v)] <-> dict_get d c = Some v /\ snd r v = OK true).
Proof.
  intros <-. unfold warn_items.
  destruct (dict_get d (fst r)) as [v0 |].
  - destruct (snd r v0) as [[|] | e] eqn:Ht; split.
    + intro H. inversion H; subst. auto.
    + intros [H1 H2]. congruence.
    + discriminate.
    + intros [H1 H2]. congruence.
    + discriminate.
    + intros [H1 H2]. congruence.
  - split; [discriminate | intros [H _]; discriminate H].
Qed.

Lemma bool_item_iff (d : dict pyval) (r : string * (pyval -> result bool))
    (c : string) (b : bool) :
  fst r = c ->
  (bool_items d r = [(c, b)] <-> exists v, dict_get d c = Some v /\ snd r v = OK b).
Proof.
  intros <-. unfold bool_items.
  destruct (dict_get d (fst r)) as [v0 |].
  - destruct (snd r v0) as [b0 | e] eqn:Ht; split.
    + intro H. inversion H; subst. eauto.
    + intros [v [H1 H2]]. congruence.
    + discriminate.
    + intros [v [H1 H2]]. congruence.
  - split; [discriminate | intros [v [H _]]; discriminate H].
Qed.

(** A [Status] is only built when every rule returned on the value it met. *)
Lemma comp_bools_tests_return (conds : dict (pyval -> result bool)) (d : dict pyval) :
  forall acc bs,
    comp_bools conds d acc = OK bs ->
    forall r v, In r conds -> dict_get d (fst r) = Some v ->
                exists b, snd r v = OK b.
Proof.
  induction conds as [| [key test] rest IH]; intros acc bs H r v Hin Hget.
  - contradiction.
  - simpl in H. unfold dict_mem, dict_getitem in H.
    destruct Hin as [<- | Hin]; simpl in *.
    + rewrite Hget in H. simpl in H.
      destruct (test v) as [b | e]; [eauto | discriminate H].
    + destruct (dict_get d key) as [v0 |]; simpl in H.
      * destruct (test v0) as [b | e]; simpl in H; [| discriminate H].
        eapply IH; eauto.
      * eapply IH; eauto.
Qed.

(** X8: in every [Status] that is built, a name is a key of [warnings]
    exactly when [bools] maps it to true; the keys of [bools] are the rule
    names the snapshot holds; and [warnings] maps a name to the snapshot's
    own value for it. *)
Theorem Status_mappings_agree (d : dict pyval) (st : Status) :
  Status_init d = OK st ->
  forall c,
    (dict_mem c (warnings st) = true <-> dict_get (bools st) c = Some true)
    /\ (dict_mem c (bools st) = true <-> In c cond_names /\ dict_mem c d = true)
    /\ (forall v, dict_get (warnings st) c = Some v -> dict_get d c = Some v).
Proof.
  intros Hst c.
  destruct (Status_init_inv d st Hst) as [_ [Hb Hw]].
  assert (Htests : forall r v, In r conditions -> dict_get d (fst r) = Some v ->
                               exists b, snd r v = OK b).
  { unfold Status_init in Hst.
    apply bind_OK_inv in Hst. destruct Hst as [bs [Hbs _]].
    apply (comp_bools_tests_return conditions d [] bs Hbs). }
  pose proof (fun v => dict_get_flat_map_rules (warn_items d) conditions c v
                         conditions_NoDup (warn_items_shape d)) as Hwget.
  pose proof (fun b => dict_get_flat_map_rules (bool_items d) conditions c b
                         conditions_NoDup (bool_items_shape d)) as Hbget.
  rewrite <- Hw in Hwget. rewrite <- Hb in Hbget.
  split; [| split].
  - unfold dict_mem. rewrite Hbget. split.
    + destruct (dict_get (warnings st) c) as [v |] eqn:Hv; [| discriminate].
      intros _. destruct (proj1 (Hwget v) eq_refl) as [r [Hin [Hc Hr]]].
      exists r. split; [exact Hin |]. split; [exact Hc |].
      apply (warn_item_iff d r c v Hc) in Hr.
      apply (bool_item_iff d r c true Hc). exists v. exact Hr.
    + intros [r [Hin [Hc Hr]]].
      apply (bool_item_iff d r c true Hc) in Hr. destruct Hr as [v Hr].
      assert (Hv : dict_get (warnings st) c = Some v).
      { apply Hwget. exists r. split; [exact Hin |]. split; [exact Hc |].
        now apply (warn_item_iff d r c v Hc). }
      rewrite Hv. reflexivity.
  - rewrite <- cond_names_keys. unfold dict_mem at 1 2. split.
    + destruct (dict_get (bools st) c) as [b |] eqn:Hget; [| discriminate].
      intros _. destruct (proj1 (Hbget b) eq_refl) as [r [Hin [Hc Hr]]].
      apply (bool_item_iff d r c b Hc) in Hr. destruct Hr as [v [Hv _]].
      split.
      * rewrite <- Hc. unfold dict_keys. now apply in_map.
      * rewrite Hv. reflexivity.
    + intros [Hc Hd].
      destruct (dict_get d c) as [v |] eqn:Hv; [| discriminate Hd].
      unfold dict_keys in Hc. apply in_map_iff in Hc.
      destruct Hc as [r [Hc Hin]].
      rewrite <- Hc in Hv.
      destruct (Htests r v Hin Hv) as [b Hb'].
      assert (Hget : dict_get (bools st) c = Some b).
      { apply Hbget. exists r. split; [exact Hin |]. split; [exact Hc |].
        apply (bool_item_iff d r c b Hc). exists v. rewrite <- Hc. auto. }
      rewrite Hget. reflexivity.
  - intros v Hv. apply Hwget in Hv. destruct Hv as [r [Hin [Hc Hr]]].
    apply (warn_item_iff d r c v Hc) in Hr. tauto.
Qed.

Lemma Status_mappings_agree_witness :
  Status_init hot_snapshot = OK hot_status
  /\ forall c,
       (dict_mem c (warnings hot_status) = true
        <-> dict_get (bools hot_status) c = Some true)
       /\ (dict_mem c (bools hot_status) = true
           <-> In c cond_names /\ dict_mem c hot_snapshot = true)
       /\ (forall v, dict_get (warnings hot_status) c = Some v ->
                     dict_get hot_snapshot c = Some v).
Proof.
  assert (H : Status_init hot_snapshot = OK hot_status)
    by (vm_compute; reflexivity).
  exact (conj H (Status_mappings_agree hot_snapshot hot_status H)).
Defined.

Lemma num_gtb_Z (a b : Z) : num_gtb (num_of_Z a) (num_of_Z b) = (b <? a).
Proof.
  unfold num_gtb, num_of_Z, fin_compare. simpl. rewrite !Z.mul_1_r.
  destruct (Z.compare_spec a b), (Z.ltb_spec b a); try reflexivity; lia.
Qed.

Lemma warning_mem_inv (d : dict pyval) (st : Status) (c : string)
    (test : pyval -> result bool) :
  Status_init d = OK st ->
  In (c, test) conditions ->
  dict_mem c (warnings st) = true ->
  exists v, dict_get d c = Some v /\ test v = OK true.
Proof.
  intros Hst Hin Hm.
  destruct (Status_init_inv d st Hst) as [_ [_ Hw]].
  rewrite dict_mem_In, Hw, warn_items_keys in Hm.
  destruct Hm as [test' [v [Hin' [Hget Ht]]]].
  rewrite (rule_of_key_unique conditions c test test' conditions_NoDup Hin Hin').
  eauto.
Qed.

(** X9: on a snapshot built by [simplify_hour], COLD and HOT read the same
    integer, so they never warn together, and a [Status] carries at most
    three warnings. *)
Theorem cold_and_hot_exclusive (h sd : dict pyval) (st : Status) :
  simplify_hour h = OK sd ->
  Status_init sd = OK st ->
  ~ (dict_mem "COLD" (warnings st) = true /\ dict_mem "HOT" (warnings st) = true)
  /\ (List.length (warnings st) <= 3)%nat.
Proof.
  intros H Hst.
  assert (Hex : ~ (dict_mem "COLD" (warnings st) = true
                   /\ dict_mem "HOT" (warnings st) = true)).
  { intros [Hc Hh].
    destruct (simplify_hour_inv h sd H)
      as [t [c [w [scaled [p [_ [_ [_ [_ [_ Hsd]]]]]]]]]].
    apply (warning_mem_inv sd st "COLD" (fun x => py_lt x (num_of_Z 15)) Hst) in Hc;
      [| simpl; tauto].
    apply (warning_mem_inv sd st "HOT" (fun x => py_gt x (num_of_Z 25)) Hst) in Hh;
      [| simpl; tauto].
    destruct Hc as [vc [Hgc Htc]]. destruct Hh as [vh [Hgh Hth]].
    assert (vc = VInt c /\ vh = VInt c) as [-> ->].
    { destruct Hsd as [-> | [r ->]]; simpl in Hgc, Hgh; split; congruence. }
    unfold py_lt, num_ltb in Htc. unfold py_gt in Hth.
    rewrite num_gtb_Z in Htc, Hth.
    inversion Htc as [Hlt]. inversion Hth as [Hgt].
    apply Z.ltb_lt in Hlt. apply Z.ltb_lt in Hgt. lia. }
  split; [exact Hex |].
  destruct (Status_init_inv sd st Hst) as [_ [_ Hw]].
  rewrite Hw in *.
  change (flat_map (warn_items sd) conditions)
    with (warn_items sd ("PROB_RAIN", fun x => py_gt x (num_of_Z 50))
          ++ warn_items sd ("COLD", fun x => py_lt x (num_of_Z 15))
          ++ warn_items sd ("UV", fun x => py_gt x (num_of_Z 2))
          ++ warn_items sd ("HOT", fun x => py_gt x (num_of_Z 25)) ++ [])%list in *.
  destruct (warn_items_shape sd ("PROB_RAIN", fun x => py_gt x (num_of_Z 50)))
    as [E1 | [v1 E1]];
  destruct (warn_items_shape sd ("COLD", fun x => py_lt x (num_of_Z 15)))
    as [E2 | [v2 E2]];
  destruct (warn_items_shape sd ("UV", fun x => py_gt x (num_of_Z 2)))
    as [E3 | [v3 E3]];
  destruct (warn_items_shape sd ("HOT", fun x => py_gt x (num_of_Z 25)))
    as [E4 | [v4 E4]];
  rewrite E1, E2, E3, E4 in *;
  simpl in *; try lia; exfalso; apply Hex; split; reflexivity.
Qed.

Lemma cold_and_hot_exclusive_witness :
  simplify_hour hot_hour = OK hot_snapshot
  /\ Status_init hot_snapshot = OK hot_status
  /\ ~ (dict_mem "COLD" (warnings hot_status) = true
        /\ dict_mem "HOT" (warnings hot_status) = true)
  /\ (List.length (warnings hot_status) <= 3)%nat.
Proof.
  assert (H : simplify_hour hot_hour = OK hot_snapshot)
    by (vm_compute; reflexivity).
  assert (Hst : Status_init hot_snapshot = OK hot_status)
    by (vm_compute; reflexivity).
  exact (conj H (conj Hst (cold_and_hot_exclusive _ _ _ H Hst))).
Defined.

(** ** Weather: what the two checks leave behind *)

Lemma append_not_empty (a b : string) : b <> "" -> a ++ b <> "".
Proof.
  intro Hb. destruct a; simpl; [exact Hb | discriminate].
Qed.

Lemma join_cons_not_empty (sep line : string) (rest : list string) :
  line <> "" -> join sep (line :: rest) <> "".
Proof.
  intro Hl. unfold join. simpl. destruct rest; [exact Hl |].
  destruct line; [contradiction | discriminate].
Qed.

Lemma long_message_not_empty (st : Status) (msg : string) :
  Status_bool st = false -> get_long_message st = OK msg -> msg <> "".
Proof.
  unfold Status_bool, get_long_message.
  destruct (warnings st) as [| kv ws]; [discriminate |]. intros _ H.
  apply bind_OK_inv in H. destruct H as [rv [Hrv H]].
  injection H as <-.
  cbn [long_message_lines] in Hrv.
  apply bind_OK_inv in Hrv. destruct Hrv as [line [Hline Hrv]].
  apply bind_OK_inv in Hrv. destruct Hrv as [tl [_ Hrv]].
  injection Hrv as <-.
  apply join_cons_not_empty.
  unfold long_message_line in Hline.
  apply bind_OK_inv in Hline. destruct Hline as [n [_ Hline]].
  injection Hline as <-. apply append_not_empty. discriminate.
Qed.

Lemma most_important_in_rules (d : dict pyval) (st : Status) :
  Status_init d = OK st -> Status_bool st = false ->
  In (get_most_important_warning st) cond_names.
Proof.
  intros Hst Hb. destruct (Status_keys d st Hst) as [_ [_ Hw]].
  unfold Status_bool in Hb. unfold get_most_important_warning.
  destruct (warnings st) as [| [name v] ws]; [discriminate Hb |].
  apply Hw. simpl. now left.
Qed.

(** X10: a next-hour check that returns posts nothing and leaves the
    weather in one of two shapes: good with an empty warning and an empty
    message, or not good with the warning "next hour: " followed by a rule
    name and a message that is not empty. *)
Theorem check_next_hour_result (fetch : result (list (dict pyval))) (w w' : World) :
  check_next_hour fetch w = (OK tt, w') ->
  outbox w' = outbox w
  /\ ((is_good (weather w') = true
       /\ warning (weather w') = "" /\ message (weather w') = "")
      \/ (is_good (weather w') = false
          /\ (exists c, In c cond_names
                        /\ warning (weather w') = "next hour: " ++ c)
          /\ message (weather w') <> "")).
Proof.
  unfold check_next_hour, mbind, lift.
  destruct fetch as [[| h0 response] | e]; try discriminate.
  destruct (simplify_hour h0) as [sd | e]; [| discriminate].
  destruct (Status_init sd) as [st | e] eqn:Hst; [| discriminate].
  destruct (Status_bool st) eqn:Hb.
  - intro H. inversion H; subst; simpl. auto.
  - simpl. destruct (get_long_message st) as [msg | e] eqn:Hmsg; [| discriminate].
    intro H. inversion H; subst; simpl. split; [reflexivity |]. right.
    split; [reflexivity |]. split.
    + exists (get_most_important_warning st). split; [| reflexivity].
      eapply most_important_in_rules; eauto.
    + eapply long_message_not_empty; eauto.
Qed.

Lemma check_next_hour_result_witness :
  check_next_hour (OK [hot_hour]) (world initial_state)
  = (OK tt, snd (check_next_hour (OK [hot_hour]) (world initial_state)))
  /\ outbox (snd (check_next_hour (OK [hot_hour]) (world initial_state)))
     = outbox (world initial_state)
  /\ ((is_good (weather (snd (check_next_hour (OK [hot_hour]) (world initial_state))))
       = true
       /\ warning (weather (snd (check_next_hour (OK [hot_hour]) (world initial_state))))
          = ""
       /\ message (weather (snd (check_next_hour (OK [hot_hour]) (world initial_state))))
          = "")
      \/ (is_good (weather (snd (check_next_hour (OK [hot_hour]) (world initial_state))))
          = false
          /\ (exists c,
                In c cond_names
                /\ warning (weather (snd (check_next_hour (OK [hot_hour])
                                            (world initial_state))))
                   = "next hour: " ++ c)
          /\ message (weather (snd (check_next_hour (OK [hot_hour])
                                      (world initial_state)))) <> "")).
Proof.
  assert (H : check_next_hour (OK [hot_hour]) (world initial_state)
              = (OK tt, snd (check_next_hour (OK [hot_hour]) (world initial_state))))
    by (vm_compute; reflexivity).
  exact (conj H (check_next_hour_result _ _ _ H)).
Defined.

Lemma long_message_lines_raises (ws : dict pyval) (e : exn) :
  long_message_lines ws = Raise e ->
  exists kv, In kv ws /\ py_int (snd kv) = Raise e.
Proof.
  induction ws as [| kv ws IH]; simpl; [discriminate |].
  unfold long_message_line.
  destruct (py_int (snd kv)) as [n | e0] eqn:Hn; simpl.
  - destruct (long_message_lines ws) as [rv | e1]; simpl; [discriminate |].
    intro H. injection H as <-.
    destruct (IH eq_refl) as [kv' [Hin Hr]]. exists kv'. auto.
  - intro H. injection H as <-. exists kv. auto.
Qed.

Lemma warning_passed_its_rule (d : dict pyval) (st : Status) (kv : string * pyval) :
  Status_init d = OK st -> In kv (warnings st) ->
  exists test, In (fst kv, test) conditions /\ test (snd kv) = OK true.
Proof.
  intros Hst Hin. destruct (Status_init_inv d st Hst) as [_ [_ Hw]].
  rewrite Hw in Hin. apply in_flat_map in Hin.
  destruct Hin as [[key test] [Hrule Hitem]].
  unfold warn_items in Hitem; simpl in Hitem.
  destruct (dict_get d key) as [v |]; [| contradiction].
  destruct (test v) as [[|] | e] eqn:Ht; try contradiction.
  destruct Hitem as [E | []]. subst kv. cbn [fst snd].
  exists test. split; [exact Hrule | exact Ht].
Qed.

(** A value some rule accepts is a number that is not NaN, so [int] can
    only fail on it by overflow. *)
Lemma py_int_of_warning (k : string) (test : pyval -> result bool) (v : pyval)
    (e : exn) :
  In (k, test) conditions -> test v = OK true -> py_int v = Raise e ->
  e = OverflowError.
Proof.
  unfold conditions. simpl.
  intros [E | [E | [E | [E | []]]]] Ht Hint; inversion E; subst; clear E;
    destruct v as [| z | f | d]; try discriminate Ht; try discriminate Hint;
    destruct f as [s | s | | s m ex]; try discriminate Ht; try discriminate Hint;
    simpl in Hint; congruence.
Qed.

(** X11: a report check that raises leaves the world exactly as it was.
    A next-hour check that raises has posted nothing, and has left the
    weather as it was too, unless rendering the message overflowed: then
    [is_good] is already false and the warning already written, beside the
    message of the check before. *)
Theorem failed_checks_leave (w : World) :
  (forall lh now_hour fetch last_hour e w',
     check_report lh now_hour fetch last_hour w = (Raise e, w') -> w' = w)
  /\ (forall fetch e w',
        check_next_hour fetch w = (Raise e, w') ->
        outbox w' = outbox w
        /\ (w' = w
            \/ (e = OverflowError
                /\ is_good (weather w') = false
                /\ message (weather w') = message (weather w)
                /\ exists c, In c cond_names
                             /\ warning (weather w') = "next hour: " ++ c))).
Proof.
  split.
  - intros lh now_hour fetch last_hour e w'.
    unfold check_report, mbind, lift.
    destruct (py_assert ((0 <=? last_hour) && (last_hour <=? 24))) as [u | e0];
      [| intro H; congruence].
    destruct fetch as [reply | e0]; [| intro H; congruence].
    destruct (gather_hours lh now_hour last_hour (firstn 24 reply))
      as [hours | e0]; [| intro H; congruence].
    destruct (report_lines (dict_keys conditions) hours) as [[| line lines] | e0];
      [discriminate | discriminate | intro H; congruence].
  - intros fetch e w'.
    unfold check_next_hour, mbind, lift.
    destruct fetch as [[| h0 response] | e0];
      [intro H; inversion H; auto | | intro H; inversion H; auto].
    destruct (simplify_hour h0) as [sd | e0]; [| intro H; inversion H; auto].
    destruct (Status_init sd) as [st | e0] eqn:Hst; [| intro H; inversion H; auto].
    destruct (Status_bool st) eqn:Hb; [discriminate |].
    simpl. destruct (get_long_message st) as [msg | e0] eqn:Hmsg; [discriminate |].
    intro H. inversion H; subst; simpl. split; [reflexivity |]. right.
    split; [| split; [reflexivity | split; [reflexivity |]]].
    + unfold get_long_message in Hmsg.
      destruct (long_message_lines (warnings st)) as [rv | e1] eqn:Hl;
        [discriminate Hmsg |].
      simpl in Hmsg. injection Hmsg as ->.
      destruct (long_message_lines_raises _ _ Hl) as [kv [Hin Hint]].
      destruct (warning_passed_its_rule sd st kv Hst Hin) as [test [Hrule Ht]].
      eapply py_int_of_warning; eauto.
    + exists (get_most_important_warning st). split; [| reflexivity].
      eapply most_important_in_rules; eauto.
Qed.

(** An infinite UV index: the check raises with half of its writes done. *)
Lemma failed_checks_leave_witness :
  check_next_hour (OK [infinite_uv_hour]) (world initial_state)
  = (Raise OverflowError,
     {| weather := {| is_good := false; warning := "next hour: PROB_RAIN";
                      message := "" |};
        outbox := [] |})
  /\ outbox {| weather := {| is_good := false; warning := "next hour: PROB_RAIN";
                             message := "" |};
               outbox := [] |} = outbox (world initial_state)
  /\ ({| weather := {| is_good := false; warning := "next hour: PROB_RAIN";
                       message := "" |};
         outbox := [] |} = world initial_state
      \/ (OverflowError = OverflowError
          /\ is_good (weather {| weather := {| is_good := false;
                                               warning := "next hour: PROB_RAIN";
                                               message := "" |};
                                 outbox := [] |}) = false
          /\ message (weather {| weather := {| is_good := false;
                                               warning := "next hour: PROB_RAIN";
                                               message := "" |};
                                 outbox := [] |})
             = message (weather (world initial_state))
          /\ exists c,
               In c cond_names
               /\ warning (weather {| weather := {| is_good := false;
                                                    warning := "next hour: PROB_RAIN";
                                                    message := "" |};
                                      outbox := [] |}) = "next hour: " ++ c)).
Proof.
  assert (H : check_next_hour (OK [infinite_uv_hour]) (world initial_state)
              = (Raise OverflowError,
                 {| weather := {| is_good := false;
                                  warning := "next hour: PROB_RAIN";
                                  message := "" |};
                    outbox := [] |}))
    by (vm_compute; reflexivity).
  exact (conj H (proj2 (failed_checks_leave (world initial_state)) _ _ _ H)).
Defined.

(** ** check_report: the window of kept hours *)

Lemma gather_hours_inv (lh : pyval -> result Z) (now_hour last_hour : Z)
    (next_day : list (dict pyval)) :
  forall hours,
    gather_hours lh now_hour last_hour next_day = OK hours ->
    Forall (fun hs => now_hour <= fst hs < last_hour) hours
    /\ exists kept rest,
         next_day = (kept ++ rest)%list
         /\ Forall2 (kept_as lh) kept hours
         /\ match rest with
            | [] => True
            | rec :: _ => outside_window lh now_hour last_hour rec
            end.
Proof.
  induction next_day as [| rec rest IH]; intros hours H; simpl in H.
  - inversion H; subst. split; [constructor |].
    exists [], []. repeat split. constructor.
  - apply bind_OK_inv in H. destruct H as [dt [Hdt H]].
    apply bind_OK_inv in H. destruct H as [hh [Hhh H]].
    unfold dict_getitem in Hdt.
    destruct (dict_get rec "dt") as [dt' |] eqn:Hget; [| discriminate Hdt].
    injection Hdt as ->.
    destruct (Z.ltb_spec hh now_hour) as [Hlo | Hlo]; simpl in H.
    + inversion H; subst. split; [constructor |].
      exists [], (rec :: rest). repeat split; [constructor |].
      exists dt, hh. auto.
    + unfold Z.geb in H.
      destruct (Z.compare_spec hh last_hour) as [He | Hlt | Hgt].
      * inversion H; subst. split; [constructor |].
        exists [], (rec :: rest). repeat split; [constructor |].
        exists dt, last_hour. split; [exact Hget |]. split; [exact Hhh | lia].
      * apply bind_OK_inv in H. destruct H as [sd [Hsd H]].
        apply bind_OK_inv in H. destruct H as [st [Hst H]].
        apply bind_OK_inv in H. destruct H as [tl [Htl H]].
        inversion H; subst.
        destruct (IH tl Htl) as [Hwin [kept [rest' [Hsplit [Hkept Hout]]]]].
        split; [constructor; [simpl; lia | exact Hwin] |].
        exists (rec :: kept), rest'. split; [simpl; congruence |].
        split; [| exact Hout]. constructor; [| exact Hkept].
        exists dt. simpl. rewrite Hsd. simpl. auto.
      * inversion H; subst. split; [constructor |].
        exists [], (rec :: rest). repeat split; [constructor |].
        exists dt, hh. split; [exact Hget |]. split; [exact Hhh | lia].
Qed.

(** X12: the hours [check_report] keeps are the longest run of records,
    from the first of at most 24, whose local hour lies in the window from
    the current hour up to, not including, [last_hour]; each kept hour
    carries the [Status] of its own record; the run ends at the first
    record outside the window. *)
Theorem report_window (lh : pyval -> result Z) (now_hour last_hour : Z)
    (reply : list (dict pyval)) (hours : list (Z * Status)) :
  gather_hours lh now_hour last_hour (firstn 24 reply) = OK hours ->
  (List.length hours <= 24)%nat
  /\ Forall (fun hs => now_hour <= fst hs < last_hour) hours
  /\ exists kept rest,
       firstn 24 reply = (kept ++ rest)%list
       /\ Forall2 (kept_as lh) kept hours
       /\ match rest with
          | [] => True
          | rec :: _ => outside_window lh now_hour last_hour rec
          end.
Proof.
  intro H.
  destruct (gather_hours_inv lh now_hour last_hour _ hours H)
    as [Hwin [kept [rest [Hsplit [Hkept Hout]]]]].
  split; [| split; [exact Hwin |]].
  - rewrite <- (Forall2_length Hkept).
    assert (Hlen : (List.length (firstn 24 reply) <= 24)%nat)
      by apply firstn_le_length.
    rewrite Hsplit, length_app in Hlen. lia.
  - exists kept, rest. auto.
Qed.

Lemma report_window_witness :
  gather_hours utc_hour 13 24 (firstn 24 mild_reply) = OK mild_hours
  /\ (List.length mild_hours <= 24)%nat
  /\ Forall (fun hs => 13 <= fst hs < 24) mild_hours
  /\ exists kept rest,
       firstn 24 mild_reply = (kept ++ rest)%list
       /\ Forall2 (kept_as utc_hour) kept mild_hours
       /\ match rest with
          | [] => True
          | rec :: _ => outside_window utc_hour 13 24 rec
          end.
Proof.
  assert (H : gather_hours utc_hour 13 24 (firstn 24 mild_reply) = OK mild_hours)
    by (vm_compute; reflexivity).
  exact (conj H (report_window utc_hour 13 24 mild_reply mild_hours H)).
Defined.

(** X13: the loop breaks at the first record outside the window: what
    follows it, well formed or not, changes neither the kept hours nor the
    exception raised. *)
Theorem report_ignores_after_break (lh : pyval -> result Z) (now_hour last_hour : Z)
    (before after : list (dict pyval)) (rec : dict pyval) :
  outside_window lh now_hour last_hour rec ->
  gather_hours lh now_hour last_hour (before ++ rec :: after)
  = gather_hours lh now_hour last_hour (before ++ [rec]).
Proof.
  intros [dt [hh [Hget [Hhh Hout]]]].
  induction before as [| r before IH]; simpl.
  - unfold dict_getitem. rewrite Hget. simpl. rewrite Hhh. simpl.
    assert (Hb : (hh <? now_hour) || (hh >=? last_hour) = true).
    { apply orb_true_iff. destruct Hout as [Hlo | Hhi].
      - left. now apply Z.ltb_lt.
      - right. apply Z.geb_le. exact Hhi. }
    rewrite Hb. reflexivity.
  - rewrite IH. reflexivity.
Qed.

Lemma report_ignores_after_break_witness :
  outside_window utc_hour 13 24 (mild_hour 86400)
  /\ gather_hours utc_hour 13 24 ([mild_hour 46800] ++ mild_hour 86400 :: [[]])
     = gather_hours utc_hour 13 24 ([mild_hour 46800] ++ [mild_hour 86400]).
Proof.
  assert (H : outside_window utc_hour 13 24 (mild_hour 86400)).
  { exists (VInt 86400), 0. repeat split; try reflexivity. left. lia. }
  exact (conj H (report_ignores_after_break utc_hour 13 24 [mild_hour 46800]
                   [[]] (mild_hour 86400) H)).
Defined.

(** ** The posts of one pass *)

Lemma check_next_hour_shapes (fetch : result (list (dict pyval))) (w : World) :
  outbox (snd (check_next_hour fetch w)) = outbox w
  /\ (fst (check_next_hour fetch w) = OK tt ->
      is_good (weather (snd (check_next_hour fetch w))) = false ->
      exists c,
        In c cond_names
        /\ warning (weather (snd (check_next_hour fetch w))) = "next hour: " ++ c
        /\ message (weather (snd (check_next_hour fetch w))) <> "").
Proof.
  unfold check_next_hour, mbind, lift.
  destruct fetch as [[| h0 response] | e]; simpl; try (split; [reflexivity | discriminate]).
  destruct (simplify_hour h0) as [sd | e]; simpl;
    [| split; [reflexivity | discriminate]].
  destruct (Status_init sd) as [st | e] eqn:Hst; simpl;
    [| split; [reflexivity | discriminate]].
  destruct (Status_bool st) eqn:Hb; simpl.
  - split; [reflexivity | discriminate].
  - destruct (get_long_message st) as [msg | e] eqn:Hmsg; simpl.
    + split; [reflexivity |]. intros _ _.
      exists (get_most_important_warning st).
      split; [eapply most_important_in_rules; eauto |].
      split; [reflexivity | eapply long_message_not_empty; eauto].
    + split; [reflexivity | discriminate].
Qed.

Lemma check_report_shapes (lh : pyval -> result Z) (now_hour : Z)
    (fetch : result (list (dict pyval))) (last_hour : Z) (w : World) :
  outbox (snd (check_report lh now_hour fetch last_hour w)) = outbox w
  /\ (fst (check_report lh now_hour fetch last_hour w) = OK tt ->
      weather (snd (check_report lh now_hour fetch last_hour w))
      = {| is_good := true; warning := ""; message := good_weather_message |}
      \/ exists msg,
           weather (snd (check_report lh now_hour fetch last_hour w))
           = {| is_good := false; warning := "prepare for the day";
                message := msg |}).
Proof.
  unfold check_report, mbind, lift.
  destruct (py_assert ((0 <=? last_hour) && (last_hour <=? 24))) as [u | e];
    [| split; [reflexivity | discriminate]].
  destruct fetch as [reply | e]; [| split; [reflexivity | discriminate]].
  destruct (gather_hours lh now_hour last_hour (firstn 24 reply)) as [hours | e];
    [| split; [reflexivity | discriminate]].
  destruct (report_lines (dict_keys conditions) hours) as [[| line lines] | e];
    [| | split; [reflexivity | discriminate]].
  - split; [reflexivity | intros _; left; reflexivity].
  - split; [reflexivity | intros _; right; eexists; reflexivity].
Qed.

Lemma update_posts (sent : result unit) (w : World) :
  (exists e, sent = Raise e /\ update sent w = (Raise e, w))
  \/ update sent w =
     (OK tt,
      {| weather := weather w;
         outbox :=
           (outbox w ++
            [N_update ((if is_good (weather w) then green_circle else red_circle)
                       ++ ": " ++ warning (weather w))
                      (message (weather w))])%list |}).
Proof.
  unfold update, mbind, get_weather, post.
  destruct sent as [[] | e]; [right | left; eauto].
  unfold join; simpl. destruct (is_good (weather w)); reflexivity.
Qed.

Lemma report_branch_posts (env : CycleEnv) (w : World) :
  (exists e, fst (report_branch env w) = Raise e
             /\ outbox (snd (report_branch env w)) = outbox w)
  \/ (fst (report_branch env w) = OK tt
      /\ exists n, report_note n
                   /\ outbox (snd (report_branch env w)) = (outbox w ++ [n])%list).
Proof.
  unfold report_branch, mbind.
  destruct (check_report_shapes (local_hour env) (report_now_hour env)
              (report_fetch env) 24 w) as [Hout Hshape].
  destruct (check_report _ _ _ _ w) as [[[] | e] w1]; simpl in *.
  - destruct (update_posts (post_report env) w1) as [[e [_ ->]] | ->]; simpl.
    + left. eauto.
    + right. split; [reflexivity |]. rewrite Hout.
      eexists. split; [| reflexivity].
      destruct (Hshape eq_refl) as [-> | [msg ->]]; simpl.
      * left. reflexivity.
      * right. eexists. reflexivity.
  - left. eauto.
Qed.

Lemma regular_branch_posts (env : CycleEnv) (w : World) :
  (exists e, fst (regular_branch env w) = Raise e
             /\ outbox (snd (regular_branch env w)) = outbox w)
  \/ (fst (regular_branch env w) = OK tt
      /\ (outbox (snd (regular_branch env w)) = outbox w
          \/ exists n, regular_note n
                       /\ outbox (snd (regular_branch env w)) = (outbox w ++ [n])%list)).
Proof.
  unfold regular_branch, mbind, get_weather, when.
  destruct (check_next_hour_shapes (next_hour_fetch env) w) as [Hout Hshape].
  destruct (check_next_hour (next_hour_fetch env) w) as [[[] | e] w1]; simpl in *.
  - destruct (is_good (weather w1)) eqn:Hg; simpl.
    + right. auto.
    + destruct (Hshape eq_refl eq_refl) as [c [Hc [Hwarn Hmsg]]].
      destruct (update_posts (post_regular env) w1) as [[e [_ ->]] | ->]; simpl.
      * left. eauto.
      * right. split; [reflexivity |]. right. rewrite Hout, Hg, Hwarn.
        eexists. split; [| reflexivity].
        exists c, (message (weather w1)). auto.
  - left. eauto.
Qed.

Ltac posts_done :=
  split; [first [reflexivity | assumption | congruence] |];
  split; [repeat (apply Forall_cons; [auto |]); apply Forall_nil |];
  split; [simpl; lia |];
  intros; try discriminate; simpl; lia.

(** Inside [try]: a report note at most, then a regular note at most; when
    the block raises, at most one of them went out. *)
Lemma try_body_posts (l : Loop) (env : CycleEnv) (w : World) :
  exists new,
    outbox (snd (try_body l env w)) = (outbox w ++ new)%list
    /\ Forall (fun n => report_note n \/ regular_note n) new
    /\ (List.length new <= 2)%nat
    /\ (forall e, fst (try_body l env w) = Raise e -> (List.length new <= 1)%nat).
Proof.
  rewrite try_body_branches. unfold mbind, when, ret.
  destruct (report_is_triggered l (now_report env)).
  - destruct (report_branch_posts env w) as [[e [Hr Ho]] | [Hr [n [Hn Ho]]]];
      destruct (report_branch env w) as [[[] | e'] w1]; simpl in *;
      try discriminate Hr.
    + exists []. rewrite app_nil_r. posts_done.
    + destruct (regular_is_triggered l (now_regular env)).
      * destruct (regular_branch_posts env w1)
          as [[e [Hg Hgo]] | [Hg [Hgo | [m [Hm Hgo]]]]];
          destruct (regular_branch env w1) as [[[] | e'] w2]; simpl in *;
          try discriminate Hg.
        -- exists [n]. rewrite Hgo, Ho. posts_done.
        -- exists [n]. rewrite Hgo, Ho. posts_done.
        -- exists [n; m]. rewrite Hgo, Ho, <- app_assoc. posts_done.
      * simpl. exists [n]. rewrite Ho. posts_done.
  - simpl. destruct (regular_is_triggered l (now_regular env)).
    + destruct (regular_branch_posts env w)
        as [[e [Hg Hgo]] | [Hg [Hgo | [m [Hm Hgo]]]]];
        destruct (regular_branch env w) as [[[] | e'] w2]; simpl in *;
        try discriminate Hg.
      * exists []. rewrite app_nil_r. posts_done.
      * exists []. rewrite app_nil_r. posts_done.
      * exists [m]. rewrite Hgo. posts_done.
    + simpl. exists []. rewrite app_nil_r. posts_done.
Qed.

Lemma notes_of_try (env : CycleEnv) (new : list notification) :
  Forall (fun n => report_note n \/ regular_note n) new ->
  Forall (fun n => report_note n \/ regular_note n \/ failure_note env n) new.
Proof.
  apply Forall_impl. intros n [H | H]; auto.
Qed.

(** X14: one pass of the loop adds at most two notifications to those
    already sent, whether it ends asleep or with an exception leaving
    [main]: each is the report's note, the next-hour note, or one of the
    handler's two failure notes. *)
Theorem pass_posts_at_most_two (l : Loop) (env : CycleEnv) (s : MainState) :
  exists new,
    outbox (world (final_state (cycle l env s))) = (outbox (world s) ++ new)%list
    /\ (List.length new <= 2)%nat
    /\ Forall (fun n => report_note n \/ regular_note n \/ failure_note env n) new.
Proof.
  unfold cycle.
  destruct (sleep s <? 60).
  { exists []. simpl. rewrite app_nil_r.
    split; [reflexivity |]. split; [lia | constructor]. }
  destruct (try_body_posts l env (world s)) as [new [Ho [Hf [H2 H1]]]].
  destruct (try_body l env (world s)) as [[u | e] w1]; simpl in *.
  - exists new. split; [exact Ho |]. split; [exact H2 | now apply notes_of_try].
  - specialize (H1 e eq_refl). unfold post.
    destruct (has_broken s); simpl;
      destruct (post_failure env) as [[] | e']; simpl.
    + exists (new ++ [N_still_broken (fail_time env)])%list.
      rewrite Ho, <- app_assoc. split; [reflexivity |].
      split; [rewrite length_app; simpl; lia |].
      apply Forall_app. split; [now apply notes_of_try |].
      constructor; [| constructor]. right. right. right. reflexivity.
    + exists new. split; [exact Ho |]. split; [lia | now apply notes_of_try].
    + exists (new ++ [N_stopped (fail_time env) e])%list.
      rewrite Ho, <- app_assoc. split; [reflexivity |].
      split; [rewrite length_app; simpl; lia |].
      apply Forall_app. split; [now apply notes_of_try |].
      constructor; [| constructor]. right. right. left. eauto.
    + exists new. split; [exact Ho |]. split; [lia | now apply notes_of_try].
Qed.

(** ** The loop over many passes *)

Lemma cycle_crash_inv (l : Loop) (env : CycleEnv) (s s' : MainState) (e : exn) :
  backoff_state s ->
  cycle l env s = Crashed e s' ->
  (exists e0, try_result l env = Raise e0)
  /\ post_failure env = Raise e
  /\ has_broken s' = true.
Proof.
  intros Hs. unfold cycle.
  assert (Hsleep : 60 <= sleep s) by (unfold backoff_state in Hs; lia).
  destruct (Z.ltb_spec (sleep s) 60) as [Hlt | _]; [lia |].
  pose proof (try_body_result l env (world s)) as Hr.
  destruct (try_body l env (world s)) as [[u | e0] w1]; simpl in Hr;
    [discriminate |].
  unfold post.
  destruct (has_broken s) eqn:Hb; simpl;
    destruct (post_failure env) as [[] | e']; intro H; inversion H; subst;
    simpl; eauto.
Qed.

(** X15: from one of the three backoff states the loop can only end through
    the handler: an exception leaves [main] only in a pass whose [try] block
    raised and whose failure post raised in turn, it is that post's
    exception, and [has_broken] is set; the assertion on [sleep] never
    fails. *)
Theorem main_ends_only_in_the_handler (l : Loop) (envs : list CycleEnv)
    (s s' : MainState) (e : exn) :
  backoff_state s ->
  main_loop l envs s = Crashed e s' ->
  exists env,
    In env envs
    /\ (exists e0, try_result l env = Raise e0)
    /\ post_failure env = Raise e
    /\ has_broken s' = true.
Proof.
  revert s. induction envs as [| env rest IH]; intros s Hs H; simpl in H.
  - discriminate H.
  - destruct (cycle l env s) as [s1 | e1 s1] eqn:Hc.
    + destruct (IH s1 (cycle_backoff_state l env s s1 Hs Hc) H)
        as [env' [Hin Hrest]].
      exists env'. split; [now right | exact Hrest].
    + inversion H; subst.
      exists env. split; [now left |].
      eapply cycle_crash_inv; eauto.
Qed.

Lemma main_ends_only_in_the_handler_witness :
  backoff_state initial_state
  /\ main_loop default_loop [env_1300; env_offline; env_1300] initial_state
     = Crashed TransportError
         (final_state (main_loop default_loop [env_1300; env_offline; env_1300]
                         initial_state))
  /\ exists env,
       In env [env_1300; env_offline; env_1300]
       /\ (exists e0, try_result default_loop env = Raise e0)
       /\ post_failure env = Raise TransportError
       /\ has_broken (final_state (main_loop default_loop
                                     [env_1300; env_offline; env_1300]
                                     initial_state)) = true.
Proof.
  assert (Hs : backoff_state initial_state) by (left; split; reflexivity).
  assert (H : main_loop default_loop [env_1300; env_offline; env_1300] initial_state
              = Crashed TransportError
                  (final_state (main_loop default_loop
                                  [env_1300; env_offline; env_1300] initial_state)))
    by (vm_compute; reflexivity).
  exact (conj Hs (conj H (main_ends_only_in_the_handler _ _ _ _ _ Hs H))).
Defined.

(** X16: at a minute that is in neither schedule a pass requests nothing
    and posts nothing, whatever the services would have answered, and it
    ends not failing with a sleep of 60 seconds: a failing state is cleared
    by the first such pass. *)
Theorem quiet_pass_resets (l : Loop) (env : CycleEnv) (s : MainState) :
  backoff_state s ->
  ~ In (now_report env) (report_checks_at l) ->
  ~ In (now_regular env) (next_hour_checks_at l) ->
  cycle l env s =
  Sleeping {| has_broken := false; sleep := 60; world := world s |}.
Proof.
  intros Hs Hrep Hreg. unfold cycle.
  assert (Hsleep : 60 <= sleep s) by (unfold backoff_state in Hs; lia).
  destruct (Z.ltb_spec (sleep s) 60) as [Hlt | _]; [lia |].
  unfold try_body, report_is_triggered, regular_is_triggered.
  assert (Hr : is_triggered (report_checks_at l) (now_report env) = false).
  { destruct (is_triggered (report_checks_at l) (now_report env)) eqn:E;
      [apply is_triggered_In in E; contradiction | reflexivity]. }
  assert (Hg : is_triggered (next_hour_checks_at l) (now_regular env) = false).
  { destruct (is_triggered (next_hour_checks_at l) (now_regular env)) eqn:E;
      [apply is_triggered_In in E; contradiction | reflexivity]. }
  rewrite Hr, Hg. reflexivity.
Qed.

Lemma quiet_pass_resets_witness :
  backoff_state {| has_broken := true; sleep := 60 * 60; world := world initial_state |}
  /\ ~ In (8, 15) (report_checks_at default_loop)
  /\ ~ In (8, 15) (next_hour_checks_at default_loop)
  /\ cycle default_loop
       {| now_report := (8, 15); now_regular := (8, 15); report_now_hour := 8;
          local_hour := utc_hour;
          report_fetch := Raise TransportError;
          next_hour_fetch := Raise TransportError;
          post_report := Raise TransportError;
          post_regular := Raise TransportError;
          post_failure := Raise TransportError; fail_time := "08:15" |}
       {| has_broken := true; sleep := 60 * 60; world := world initial_state |}
     = Sleeping {| has_broken := false; sleep := 60; world := world initial_state |}.
Proof.
  assert (Hs : backoff_state {| has_broken := true; sleep := 60 * 60;
                                world := world initial_state |})
    by (right; simpl; auto).
  assert (Hrep : ~ In (8, 15) (report_checks_at default_loop))
    by (simpl; intuition discriminate).
  assert (Hreg : ~ In (8, 15) (next_hour_checks_at default_loop))
    by (simpl; intuition discriminate).
  exact (conj Hs (conj Hrep (conj Hreg
           (quiet_pass_resets default_loop
              {| now_report := (8, 15); now_regular := (8, 15);
                 report_now_hour := 8; local_hour := utc_hour;
                 report_fetch := Raise TransportError;
                 next_hour_fetch := Raise TransportError;
                 post_report := Raise TransportError;
                 post_regular := Raise TransportError;
                 post_failure := Raise TransportError; fail_time := "08:15" |}
              _ Hs Hrep Hreg)))).
Defined.

Lemma try_notes_are_not_failure_notes (new : list notification) :
  Forall (fun n => report_note n \/ regular_note n) new ->
  filter is_failure_note new = [].
Proof.
  induction 1 as [| n new Hn _ IH]; simpl; [reflexivity |].
  destruct Hn as [[-> | [body ->]] | [c [body [_ [_ ->]]]]]; simpl; exact IH.
Qed.

Lemma cycle_failure_posts (l : Loop) (env : CycleEnv) (s : MainState) :
  60 <= sleep s ->
  failing_pass l env ->
  exists s' new,
    cycle l env s = Sleeping s'
    /\ has_broken s' = true
    /\ 60 <= sleep s'
    /\ outbox (world s') = (outbox (world s) ++ new)%list
    /\ map priority (filter is_failure_note new)
       = [Some (if has_broken s then "min" else "max")].
Proof.
  intros Hs [[e He] Hpost]. unfold cycle.
  destruct (Z.ltb_spec (sleep s) 60) as [Hlt | _]; [lia |].
  pose proof (try_body_result l env (world s)) as Hr. rewrite He in Hr.
  destruct (try_body_posts l env (world s)) as [new [Ho [Hf _]]].
  apply try_notes_are_not_failure_notes in Hf.
  destruct (try_body l env (world s)) as [[u | e'] w1]; simpl in *;
    [discriminate Hr |].
  unfold post. rewrite Hpost.
  destruct (has_broken s); simpl.
  - exists {| has_broken := true; sleep := 3600;
              world := {| weather := weather w1;
                          outbox := (outbox w1 ++ [N_still_broken (fail_time env)])%list |} |},
           (new ++ [N_still_broken (fail_time env)])%list.
    simpl. rewrite Ho, <- app_assoc, filter_app, Hf.
    repeat split; auto. lia.
  - exists {| has_broken := true; sleep := 60 * 15;
              world := {| weather := weather w1;
                          outbox := (outbox w1 ++ [N_stopped (fail_time env) e'])%list |} |},
           (new ++ [N_stopped (fail_time env) e'])%list.
    simpl. rewrite Ho, <- app_assoc, filter_app, Hf.
    repeat split; auto. lia.
Qed.

Lemma failing_streak_priorities (l : Loop) (envs : list CycleEnv) :
  Forall (failing_pass l) envs ->
  forall s,
    has_broken s = true -> 60 <= sleep s ->
    exists s' new,
      main_loop l envs s = Sleeping s'
      /\ outbox (world s') = (outbox (world s) ++ new)%list
      /\ map priority (filter is_failure_note new)
         = map (fun _ => Some "min") envs.
Proof.
  induction 1 as [| env rest Henv _ IH]; intros s Hb Hs; simpl.
  - exists s, []. rewrite app_nil_r. auto.
  - destruct (cycle_failure_posts l env s Hs Henv)
      as [s1 [new1 [Hc [Hb1 [Hs1 [Ho1 Hp1]]]]]].
    rewrite Hc. rewrite Hb in Hp1.
    destruct (IH s1 Hb1 Hs1) as [s' [new2 [Hrun [Ho2 Hp2]]]].
    exists s', (new1 ++ new2)%list.
    split; [exact Hrun |]. split.
    + rewrite Ho2, Ho1, <- app_assoc. reflexivity.
    + rewrite filter_app, map_app, Hp1, Hp2. reflexivity.
Qed.

(** X17: in a streak of failing passes from the non-failing state, the
    handler posts once per pass: the first note has priority max, every
    later one priority min, and every other note sent meanwhile is a weather
    note. *)
Theorem failure_streak_priorities (l : Loop) (s : MainState) (envs : list CycleEnv) :
  has_broken s = false ->
  sleep s = 60 ->
  Forall (failing_pass l) envs ->
  exists s' new,
    main_loop l envs s = Sleeping s'
    /\ outbox (world s') = (outbox (world s) ++ new)%list
    /\ map priority (filter is_failure_note new)
       = match envs with
         | [] => []
         | _ :: rest => Some "max" :: map (fun _ => Some "min") rest
         end.
Proof.
  intros Hb Hs Hall. destruct Hall as [| env rest Henv Hrest]; simpl.
  - exists s, []. rewrite app_nil_r. auto.
  - destruct (cycle_failure_posts l env s ltac:(lia) Henv)
      as [s1 [new1 [Hc [Hb1 [Hs1 [Ho1 Hp1]]]]]].
    rewrite Hc. rewrite Hb in Hp1.
    destruct (failing_streak_priorities l rest Hrest s1 Hb1 Hs1)
      as [s' [new2 [Hrun [Ho2 Hp2]]]].
    exists s', (new1 ++ new2)%list.
    split; [exact Hrun |]. split.
    + rewrite Ho2, Ho1, <- app_assoc. reflexivity.
    + rewrite filter_app, map_app, Hp1, Hp2. reflexivity.
Qed.

Lemma failure_streak_priorities_witness :
  Forall (failing_pass default_loop) [env_down; env_down; env_down]
  /\ exists s' new,
       main_loop default_loop [env_down; env_down; env_down] initial_state
       = Sleeping s'
       /\ outbox (world s') = (outbox (world initial_state) ++ new)%list
       /\ map priority (filter is_failure_note new)
          = [Some "max"; Some "min"; Some "min"].
Proof.
  assert (Hpass : failing_pass default_loop env_down).
  { split; [exists TransportError; vm_compute; reflexivity | reflexivity]. }
  assert (Hall : Forall (failing_pass default_loop) [env_down; env_down; env_down]).
  { repeat (apply Forall_cons; [exact Hpass |]). apply Forall_nil. }
  exact (conj Hall
           (failure_streak_priorities default_loop initial_state
              [env_down; env_down; env_down] eq_refl eq_refl Hall)).
Defined.

(** ** Range compression on a full window *)

Lemma maximal_runs_consecutive (n : nat) :
  forall a,
    maximal_runs (map (fun i => a + Z.of_nat i) (seq 0 (S n)))
    = [(a, a + Z.of_nat n)].
Proof.
  induction n as [| n IH]; intro a.
  - simpl. f_equal. f_equal; lia.
  - change (seq 0 (S (S n))) with (0%nat :: seq 1 (S n)).
    rewrite <- seq_shift, map_cons, map_map.
    cbn [maximal_runs].
    rewrite (map_ext (fun i => a + Z.of_nat (S i)) (fun i => (a + 1) + Z.of_nat i))
      by (intro i; lia).
    rewrite IH.
    replace (a + Z.of_nat 0) with a by lia.
    rewrite Z.eqb_refl. f_equal. f_equal. lia.
Qed.

(** X18: when a rule is triggered on every hour of a run of consecutive
    hours, the compression gives one token: the hour itself for a single
    hour, first-last otherwise. *)
Theorem full_window_is_one_range (a : Z) (n : nat) :
  condition_pairs_to_string
    (map (fun i => (a + Z.of_nat i, true)) (seq 0 (S n)))
  = render_pair (a, a + Z.of_nat n)
  /\ render_pair (a, a + Z.of_nat n)
     = match n with
       | O => str_of_Z a
       | S _ => str_of_Z a ++ "-" ++ str_of_Z (a + Z.of_nat n)
       end.
Proof.
  split.
  - unfold condition_pairs_to_string. rewrite hour_pairs_runs.
    assert (Hg : good_hours (map (fun i => (a + Z.of_nat i, true)) (seq 0 (S n)))
                 = map (fun i => a + Z.of_nat i) (seq 0 (S n))).
    { rewrite good_hours_filter.
      induction (seq 0 (S n)) as [| i tl IH]; simpl; [reflexivity |].
      rewrite IH. reflexivity. }
    rewrite Hg, maximal_runs_consecutive. reflexivity.
  - unfold render_pair; simpl. destruct n as [| n].
    + replace (a + Z.of_nat 0) with a by lia. rewrite Z.eqb_refl. reflexivity.
    + destruct (Z.eqb_spec a (a + Z.of_nat (S n))) as [E | _]; [lia | reflexivity].
Qed.

(** ** The backoff state after a run *)

Lemma main_loop_app (l : Loop) (before after : list CycleEnv) (s : MainState) :
  main_loop l (before ++ after) s =
  match main_loop l before s with
  | Sleeping s1 => main_loop l after s1
  | Crashed e s1 => Crashed e s1
  end.
Proof.
  revert s. induction before as [| env before IH]; intro s; simpl.
  - reflexivity.
  - destruct (cycle l env s) as [s1 | e s1]; [apply IH | reflexivity].
Qed.

Lemma cycle_sleeping_inv (l : Loop) (env : CycleEnv) (s s' : MainState) :
  60 <= sleep s ->
  cycle l env s = Sleeping s' ->
  (has_broken s', sleep s') =
  match try_result l env with
  | OK _ => (false, 60)
  | Raise _ => (true, if has_broken s then 3600 else 60 * 15)
  end.
Proof.
  intros Hs. unfold cycle.
  destruct (Z.ltb_spec (sleep s) 60) as [Hlt | _]; [lia |].
  rewrite <- (try_body_result l env (world s)).
  destruct (try_body l env (world s)) as [[u | e] w1]; simpl.
  - intro H. inversion H; subst. reflexivity.
  - destruct (has_broken s); simpl;
      destruct (post (post_failure env) _ w1) as [[u | e'] w2];
      intro H; inversion H; subst; reflexivity.
Qed.

(** X19: after two or more passes that all reached [time.sleep], the
    backoff state is decided by the last two alone: not failing with 60
    seconds when the last [try] block returned; failing with 15 minutes when
    the last raised and the one before returned; failing with 60 minutes
    when both raised. *)
Theorem backoff_depends_on_last_two (l : Loop) (envs : list CycleEnv)
    (e1 e2 : CycleEnv) (s s' : MainState) :
  backoff_state s ->
  main_loop l (envs ++ [e1; e2]) s = Sleeping s' ->
  (has_broken s', sleep s') =
  match try_result l e2, try_result l e1 with
  | OK _, _ => (false, 60)
  | Raise _, OK _ => (true, 15 * 60)
  | Raise _, Raise _ => (true, 60 * 60)
  end.
Proof.
  intros Hs H. rewrite main_loop_app in H.
  destruct (main_loop l envs s) as [s0 | e s0] eqn:Hrun; [| discriminate H].
  pose proof (main_loop_backoff_state l envs s s0 Hs Hrun) as Hs0.
  simpl in H.
  destruct (cycle l e1 s0) as [s1 | e s1] eqn:Hc1; [| discriminate H].
  destruct (cycle l e2 s1) as [s2 | e s2] eqn:Hc2; [| discriminate H].
  inversion H; subst s2.
  pose proof (cycle_backoff_state l e1 s0 s1 Hs0 Hc1) as Hs1.
  assert (H0 : 60 <= sleep s0) by (unfold backoff_state in Hs0; lia).
  assert (H1 : 60 <= sleep s1) by (unfold backoff_state in Hs1; lia).
  pose proof (cycle_sleeping_inv l e1 s0 s1 H0 Hc1) as E1.
  pose proof (cycle_sleeping_inv l e2 s1 s' H1 Hc2) as E2.
  rewrite E2.
  destruct (try_result l e2) as [u2 | x2]; [reflexivity |].
  destruct (try_result l e1) as [u1 | x1]; injection E1 as Hb1 Hsl1;
    rewrite Hb1; reflexivity.
Qed.

Lemma backoff_depends_on_last_two_witness :
  backoff_state initial_state
  /\ main_loop default_loop ([env_down] ++ [env_1300; env_down]) initial_state
     = Sleeping (final_state (main_loop default_loop
                                ([env_down] ++ [env_1300; env_down])
                                initial_state))
  /\ (has_broken (final_state (main_loop default_loop
                                 ([env_down] ++ [env_1300; env_down])
                                 initial_state)),
      sleep (final_state (main_loop default_loop
                            ([env_down] ++ [env_1300; env_down])
                            initial_state)))
     = match try_result default_loop env_down, try_result default_loop env_1300 with
       | OK _, _ => (false, 60)
       | Raise _, OK _ => (true, 15 * 60)
       | Raise _, Raise _ => (true, 60 * 60)
       end.
Proof.
  assert (Hs : backoff_state initial_state) by (left; split; reflexivity).
  assert (H : main_loop default_loop ([env_down] ++ [env_1300; env_down])
                initial_state
              = Sleeping (final_state (main_loop default_loop
                                         ([env_down] ++ [env_1300; env_down])
                                         initial_state)))
    by (vm_compute; reflexivity).
  exact (conj Hs (conj H
           (backoff_depends_on_last_two default_loop [env_down] env_1300 env_down
              initial_state _ Hs H))).
Defined.
